(** * The registration and email-verification flow of the library API

    A shallow embedding of [UsersService] (users.service.ts) and
    [AuthService] (auth/auth.service.ts), together with models of the
    collaborators they call: the Prisma [user] collection (schema.prisma),
    [argon2], [jsonwebtoken], the WHATWG [URL] class and the mailer.

    The repository holds two revisions of users.service.ts.  The embedding
    follows the one with the [secret()] accessor, the expired-token branch
    and the mail helpers.  [Logger] calls are left out: they write to the
    console only and no result depends on them. *)

From Stdlib Require Import ZArith String Ascii List Lia.
From stdpp Require Import base option list strings pretty gmap.

Local Open Scope Z_scope.

(** ** JavaScript values and objects *)

(** The scalar values that occur in rows of the [users] collection and in
    token payloads.  [undefined] is the absence of a key. *)
Inductive JsVal :=
| VNull
| VBool (b : bool)
| VNum (n : Z)
| VStr (s : string).

#[global] Instance JsVal_eq_dec : EqDecision JsVal.
Proof. solve_decision. Defined.

(** A plain object: property name to value. *)
Abbreviation JsObject := (gmap string JsVal).

(** A string that may be [undefined], when it is truthy: only a non-empty
    string is. *)
Definition nonempty (s : option string) : option string :=
  match s with
  | Some (String c r) => Some (String c r)
  | _ => None
  end.

(** [a || b] on strings. *)
Definition or_else (s : option string) (d : string) : string :=
  default d (nonempty s).

(** ** Exceptions *)

(** The errors that are thrown in the flow, by the services (the two Nest
    HTTP exceptions) and by the collaborators. *)
Inductive Exn :=
| BadRequestException (message : string)
| InternalServerErrorException (message : string)
| TokenExpiredError (message : string)
| NotBeforeError (message : string)
| JsonWebTokenError (message : string)
| PrismaClientKnownRequestError (code : string)
| PrismaClientValidationError
| TypeError (message : string)
| MailerError (message : string).

#[global] Instance Exn_eq_dec : EqDecision Exn.
Proof. solve_decision. Defined.

(** [error.name] *)
Definition name (e : Exn) : string :=
  match e with
  | BadRequestException _ => "BadRequestException"
  | InternalServerErrorException _ => "InternalServerErrorException"
  | TokenExpiredError _ => "TokenExpiredError"
  | NotBeforeError _ => "NotBeforeError"
  | JsonWebTokenError _ => "JsonWebTokenError"
  | PrismaClientKnownRequestError _ => "PrismaClientKnownRequestError"
  | PrismaClientValidationError => "PrismaClientValidationError"
  | TypeError _ => "TypeError"
  | MailerError _ => "Error"
  end.

(** The failure kinds of the specification, as the exceptions the services
    throw for them. *)
Definition DuplicateEmail : Exn :=
  BadRequestException "The email address is already associated with an account.".
Definition CreateFailed : Exn := BadRequestException "Error creating user".
Definition UserNotFound : Exn := BadRequestException "User not found".
Definition InvalidToken : Exn := BadRequestException "Invalid token".
Definition TokenExpired : Exn := BadRequestException "Token has expired".
Definition ConfigurationError : Exn :=
  InternalServerErrorException "JWT secret is not set".
Definition DeliveryError : Exn :=
  InternalServerErrorException "Error sending email".

(** ** Tokens (jsonwebtoken) *)

(** The package as its documentation describes it, for HS256 tokens.  Times
    are in whole seconds, as the package reads the clock
    ([Math.floor(Date.now() / 1000)]). *)

(** A decoded payload, [jwt.JwtPayload & { ... }]: the two registered
    claims the library maintains itself, [iat], the issue time, and [exp],
    the expiry, both in seconds, and under [claims] every other claim of
    the payload, [nbf] among them when the payload has one. *)
Record JwtPayload := mkPayload {
  claims : JsObject;
  iat : Z;
  exp : option Z
}.

(** A token string, seen through the parser of the library: either a
    well-formed compact JWS, with its payload and the key its signature
    verifies under, or any other string. *)
Inductive Token :=
| Jws (payload : JwtPayload) (key : string)
| Raw (s : string).

(** [!token]: the empty string is the one falsy string. *)
Definition falsy (t : Token) : bool :=
  match t with
  | Raw EmptyString => true
  | _ => false
  end.

(** [jwt.sign(claims, secret, { expiresIn })] at time [now], as the
    services call it: with a secret that is not empty and with claims that
    name none of the registered claims [iat], [exp] and [nbf], as
    [{ email }].  [jwt_sign_payload] below is the call for any claims and
    any secret. *)
Definition jwt_sign (c : JsObject) (secret : string) (expiresIn : Z) (now : Z)
  : Token :=
  Jws {| claims := c; iat := now; exp := Some (now + expiresIn) |} secret.

(** The check of [exp]: a token is expired from the second [exp] on. *)
Definition check_exp (p : JwtPayload) (now : Z) : Exn + JwtPayload :=
  match exp p with
  | Some e =>
      if decide (e <= now) then inl (TokenExpiredError "jwt expired")
      else inr p
  | None => inr p
  end.

(** [jwt.verify(token, secret)] at time [now]: the signature is checked
    first, then [nbf] when the payload has one (a token is not active
    before the second [nbf]), then the expiry. *)
Definition jwt_verify (t : Token) (secret : string) (now : Z)
  : Exn + JwtPayload :=
  match t with
  | Raw EmptyString => inl (JsonWebTokenError "jwt must be provided")
  | Raw _ => inl (JsonWebTokenError "jwt malformed")
  | Jws p k =>
      if decide (k = secret) then
        match claims p !! "nbf" with
        | Some (VNum n) =>
            if decide (now < n) then inl (NotBeforeError "jwt not active")
            else check_exp p now
        | Some _ => inl (JsonWebTokenError "invalid nbf value")
        | None => check_exp p now
        end
      else inl (JsonWebTokenError "invalid signature")
  end.

(** ['1h'] as a time span in seconds. *)
Definition one_hour : Z := 60 * 60.

(** ** The process and its collaborators *)

(** The functions of the platform and of third-party packages whose
    results are used as they come. *)
Class Externals := {
  (** [argon2.hash]: the encoded digest of a plaintext. *)
  argon2_hash : string → string;
  (** The [ObjectId] the database gives the n-th document it creates. *)
  ObjectId : N → string;
  (** The compact serialization of a signed token. *)
  jws_compact : JwtPayload → string → string;
  (** [new URL(input, base).toString()]; [None] when the constructor
      throws. *)
  URL_href : string → string → option string;
  (** The serializer [searchParams] applies to a value. *)
  urlencode : string → string
}.

(** The token as the string that travels. *)
Definition token_text {ext : Externals} (t : Token) : string :=
  match t with
  | Jws p k => jws_compact p k
  | Raw s => s
  end.

(** [process.env], the variables the flow reads. *)
Record Env := mkEnv {
  JWT_SECRET : option string;
  NODE_ENV : option string;
  API_URL : option string;
  SMTP_FROM : option string
}.

(** The argument of [mailerService.sendMail]. *)
Record Mail := mkMail {
  mail_from : string;
  mail_to : string;
  mail_subject : string;
  mail_html : string
}.

(** [CreateUserDto] *)
Record CreateUserDto := mkDto {
  email : string;
  username : string;
  password : string
}.

(** The calls made to the collaborators, in the order they are made. *)
Inductive Call :=
| CallFindUnique (where_email : string)
| CallHash (plaintext : string)
| CallCreate (data_email data_username data_password : string)
| CallUpdate (where_email : option JsVal) (data : JsObject)
| CallSendMail (m : Mail).

(** Everything outside the services that they read or change: the
    environment, the clock (in seconds), the [users] collection with the
    count of documents created so far, the mail transport, and the record
    of the calls made. *)
Record World := mkWorld {
  env : Env;
  clock : Z;
  users : list JsObject;
  created : N;
  smtp_up : bool;
  outbox : list Mail;
  calls : list Call
}.

Definition log (c : Call) (w : World) : World :=
  {| env := env w; clock := clock w; users := users w; created := created w;
     smtp_up := smtp_up w; outbox := outbox w; calls := calls w ++ [c] |}.

Definition set_users (us : list JsObject) (n : N) (w : World) : World :=
  {| env := env w; clock := clock w; users := us; created := n;
     smtp_up := smtp_up w; outbox := outbox w; calls := calls w |}.

Definition deliver (m : Mail) (w : World) : World :=
  {| env := env w; clock := clock w; users := users w; created := created w;
     smtp_up := smtp_up w; outbox := outbox w ++ [m]; calls := calls w |}.

(** ** Computations: state and exceptions *)

Inductive Outcome (A : Type) :=
| Return (a : A)
| Throw (e : Exn).
Arguments Return {A} a.
Arguments Throw {A} e.

Definition M (A : Type) : Type := World → Outcome A * World.

Definition ret {A} (a : A) : M A := λ w, (Return a, w).

Definition throw {A} (e : Exn) : M A := λ w, (Throw e, w).

Definition bind {A B} (m : M A) (k : A → M B) : M B :=
  λ w, match m w with
       | (Return a, w') => k a w'
       | (Throw e, w') => (Throw e, w')
       end.

(** [try { m } catch (error) { h error }] *)
Definition try_catch {A} (m : M A) (h : Exn → M A) : M A :=
  λ w, match m w with
       | (Return a, w') => (Return a, w')
       | (Throw e, w') => h e w'
       end.

Definition lift {A} (r : Exn + A) : M A :=
  match r with
  | inl e => throw e
  | inr a => ret a
  end.

Notation "'let*' x ':=' m 'in' k" := (bind m (λ x, k))
  (at level 10, x name, m at level 100, k at level 200).

Definition process_env : M Env := λ w, (Return (env w), w).

Definition Date_now : M Z := λ w, (Return (clock w), w).

(** ** The [users] collection (schema.prisma, model [User]) *)

(** The row has the value [v] under the key [k]. *)
Definition has (k : string) (v : JsVal) (u : JsObject) : bool :=
  bool_decide (u !! k = Some v).

(** The document [prisma.user.create] stores: the data given and the
    defaults of the schema. *)
Definition new_user {ext : Externals} (n : N) (now : Z)
    (e u p : string) : JsObject :=
  <["id" := VStr (ObjectId n)]>
  (<["email" := VStr e]>
  (<["username" := VStr u]>
  (<["role" := VStr "user"]>
  (<["password" := VStr p]>
  (<["phoneNumber" := VNull]>
  (<["emailIsVerified" := VBool false]>
  (<["refreshToken" := VNull]>
  (<["createdAt" := VNum now]>
  (<["updatedAt" := VNum now]> ∅))))))))).

(** [prisma.user.findUnique({ where: { email } })] *)
Definition prisma_user_findUnique (e : string) : M (option JsObject) :=
  λ w, (Return (find (has "email" (VStr e)) (users w)),
        log (CallFindUnique e) w).

(** [prisma.user.create({ data: { email, username, password } })]: the
    schema marks [email] and [username] as [@unique], and a violation is
    the known request error P2002; the collection is then left as it was. *)
Definition prisma_user_create {ext : Externals} (e u p : string) : M JsObject :=
  λ w,
    let w1 := log (CallCreate e u p) w in
    if existsb (has "email" (VStr e)) (users w)
       || existsb (has "username" (VStr u)) (users w)
    then (Throw (PrismaClientKnownRequestError "P2002"), w1)
    else
      let row := new_user (created w) (clock w) e u p in
      (Return row, set_users (users w ++ [row]) (N.succ (created w)) w1).

(** Replace the first row that satisfies [p] by its image under [g]. *)
Fixpoint update_first (p : JsObject → bool) (g : JsObject → JsObject)
    (l : list JsObject) : option (JsObject * list JsObject) :=
  match l with
  | [] => None
  | u :: r =>
      if p u then Some (g u, g u :: r)
      else match update_first p g r with
           | Some (x, r') => Some (x, u :: r')
           | None => None
           end
  end.

(** The row after an update with [data]: the fields of [data] replace
    those of the row, and [updatedAt] ([@updatedAt]) is set to the time of
    the update. *)
Definition updated (data : JsObject) (now : Z) (u : JsObject) : JsObject :=
  <["updatedAt" := VNum now]> (data ∪ u).

(** [prisma.user.update({ where: { email }, data })]: [email] must be a
    string, else the query is rejected; no row with that email is the
    known request error P2025. *)
Definition prisma_user_update (where_email : option JsVal) (data : JsObject)
  : M JsObject :=
  λ w,
    let w1 := log (CallUpdate where_email data) w in
    match where_email with
    | Some (VStr e) =>
        match update_first (has "email" (VStr e))
                (updated data (clock w)) (users w) with
        | Some (row, us) => (Return row, set_users us (created w) w1)
        | None => (Throw (PrismaClientKnownRequestError "P2025"), w1)
        end
    | _ => (Throw PrismaClientValidationError, w1)
    end.

(** ** The other collaborators *)

(** [argon2.hash(plaintext)] *)
Definition argon2_hash_call {ext : Externals} (plaintext : string) : M string :=
  λ w, (Return (argon2_hash plaintext), log (CallHash plaintext) w).

(** [mailerService.sendMail(m)]: the message is delivered when the
    transport is up, and the call rejects otherwise. *)
Definition mailerService_sendMail (m : Mail) : M unit :=
  λ w,
    let w1 := log (CallSendMail m) w in
    if smtp_up w then (Return tt, deliver m w1)
    else (Throw (MailerError "connect ECONNREFUSED"), w1).

Definition dq : string := String (ascii_of_nat 34) EmptyString.
Definition nl : string := String (ascii_of_nat 10) EmptyString.

(** ** The [users] collection: reads and writes by id *)

(** The calls below are not entered in the record of calls, which follows
    the registration and verification flow. *)

(** How the store reads an id given as a string: the number of the
    [ObjectId] it denotes, or nothing when the string is not the
    hexadecimal form of one. *)
Class ObjectIds := {
  parse_ObjectId : string → option N
}.

(** A plain [Error]: the constructor whose [name] is ["Error"]. *)
Definition PlainError (message : string) : Exn := MailerError message.

(** [error.message].  The texts of the errors of Prisma are long; what is
    kept of them is that they start with the invocation that failed. *)
Definition message_of (e : Exn) : string :=
  match e with
  | BadRequestException m => m
  | InternalServerErrorException m => m
  | TokenExpiredError m => m
  | NotBeforeError m => m
  | JsonWebTokenError m => m
  | PrismaClientKnownRequestError code =>
      "Invalid `prisma.user` invocation: " +:+ code
  | PrismaClientValidationError =>
      "Invalid `prisma.user` invocation: Argument validation"
  | TypeError m => m
  | MailerError m => m
  end.

(** The first row that satisfies [p], with the rows before and after it. *)
Fixpoint split_first (p : JsObject → bool) (l : list JsObject)
  : option (list JsObject * JsObject * list JsObject) :=
  match l with
  | [] => None
  | u :: r =>
      if p u then Some ([], u, r)
      else match split_first p r with
           | Some (l1, v, l2) => Some (u :: l1, v, l2)
           | None => None
           end
  end.

Definition is_string (v : JsVal) : bool :=
  match v with VStr _ => true | _ => false end.

Definition is_string_or_null (v : JsVal) : bool :=
  match v with VStr _ | VNull => true | _ => false end.

(** The fields [UserUpdateInput] admits for the model [User], with the
    type of each; the id of a document cannot be written.  A nested write
    of the address is an object, which is outside the values modelled. *)
Definition valid_field (k : string) (v : JsVal) : bool :=
  if decide (k = "email") then is_string v
  else if decide (k = "username") then is_string v
  else if decide (k = "password") then is_string v
  else if decide (k = "role") then
    bool_decide (v = VStr "user" ∨ v = VStr "admin")
  else if decide (k = "phoneNumber") then is_string_or_null v
  else if decide (k = "refreshToken") then is_string_or_null v
  else if decide (k = "emailIsVerified") then
    match v with VBool _ => true | _ => false end
  else if decide (k = "createdAt") then
    match v with VNum _ => true | _ => false end
  else if decide (k = "updatedAt") then
    match v with VNum _ => true | _ => false end
  else false.

Definition valid_data (data : JsObject) : bool :=
  forallb (λ kv, valid_field kv.1 kv.2) (map_to_list data).

(** The data would give the row a value of a [@unique] field that another
    row has. *)
Definition conflicts (data : JsObject) (others : list JsObject) : bool :=
  match data !! "email" with
  | Some v => existsb (has "email" v) others
  | None => false
  end
  || match data !! "username" with
     | Some v => existsb (has "username" v) others
     | None => false
     end.

(** [prisma.user.findMany()] *)
Definition prisma_user_findMany : M (list JsObject) :=
  λ w, (Return (users w), w).

(** [prisma.user.findUnique({ where: { id } })]: a string that is no
    [ObjectId] is the known request error P2023. *)
Definition prisma_user_findUnique_id {ext : Externals} {ids : ObjectIds}
    (id : string) : M (option JsObject) :=
  λ w,
    match parse_ObjectId id with
    | None => (Throw (PrismaClientKnownRequestError "P2023"), w)
    | Some n => (Return (find (has "id" (VStr (ObjectId n))) (users w)), w)
    end.

(** [prisma.user.update({ where: { id }, data })]: the data is checked
    against the model, then the row is looked up, then the [@unique]
    fields are checked against the other rows.  The fields of [data]
    replace those of the row, and [updatedAt] is the time of the update
    unless [data] gives one. *)
Definition prisma_user_update_id {ext : Externals} {ids : ObjectIds}
    (id : string) (data : JsObject) : M JsObject :=
  λ w,
    if negb (valid_data data) then (Throw PrismaClientValidationError, w)
    else
      match parse_ObjectId id with
      | None => (Throw (PrismaClientKnownRequestError "P2023"), w)
      | Some n =>
          match split_first (has "id" (VStr (ObjectId n))) (users w) with
          | None => (Throw (PrismaClientKnownRequestError "P2025"), w)
          | Some (l1, u, l2) =>
              if conflicts data (l1 ++ l2) then
                (Throw (PrismaClientKnownRequestError "P2002"), w)
              else
                let row := data ∪ <["updatedAt" := VNum (clock w)]> u in
                (Return row, set_users (l1 ++ row :: l2) (created w) w)
          end
      end.

(** [prisma.user.delete({ where: { id } })] *)
Definition prisma_user_delete {ext : Externals} {ids : ObjectIds}
    (id : string) : M JsObject :=
  λ w,
    match parse_ObjectId id with
    | None => (Throw (PrismaClientKnownRequestError "P2023"), w)
    | Some n =>
        match split_first (has "id" (VStr (ObjectId n))) (users w) with
        | None => (Throw (PrismaClientKnownRequestError "P2025"), w)
        | Some (l1, u, l2) => (Return u, set_users (l1 ++ l2) (created w) w)
        end
    end.

(** ** users.service.ts *)

Module UsersService.
Section Service.
Context {ext : Externals}.

Definition secret : M string :=
  let* e := process_env in
  match nonempty (JWT_SECRET e) with
  | None =>
      if bool_decide (NODE_ENV e ≠ Some "production") then
        ret "default-secret"
      else throw (InternalServerErrorException "JWT secret is not set")
  | Some secret => ret secret
  end.

Definition create (data : CreateUserDto) : M JsObject :=
  let* existingUser := prisma_user_findUnique (email data) in
  match existingUser with
  | Some _ =>
      throw (BadRequestException
               "The email address is already associated with an account.")
  | None =>
      let* hashedPassword := argon2_hash_call (password data) in
      try_catch
        (let* row :=
           prisma_user_create (email data) (username data) hashedPassword in
         ret (delete "password" row))
        (λ error, throw (BadRequestException "Error creating user"))
  end.

Definition generateEmailVerificationToken (email id : string) : M Token :=
  let* user := prisma_user_findUnique email in
  match user with
  | None => throw (BadRequestException "User not found")
  | Some _ =>
      let* s := secret in
      let* now := Date_now in
      ret (jwt_sign {[ "email" := VStr email ]} s one_hour now)
  end.

Definition verifyEmailVerificationToken (token : Token) : M string :=
  if falsy token then throw (BadRequestException "Invalid token")
  else
    try_catch
      (let* s := secret in
       let* now := Date_now in
       let* decoded := lift (jwt_verify token s now) in
       let* _ :=
         prisma_user_update (claims decoded !! "email")
           {[ "emailIsVerified" := VBool true ]} in
       ret "Email verified successfully")
      (λ error,
         if String.eqb (name error) "TokenExpiredError" then
           throw (BadRequestException "Token has expired")
         else throw (BadRequestException "Invalid token")).

Definition generateVerificationLink (token : string) : M string :=
  let* e := process_env in
  let baseUrl := or_else (API_URL e) "http://localhost:8080" in
  match URL_href "/verify-email" baseUrl with
  | None => throw (TypeError "Invalid URL")
  | Some href => ret (href +:+ "?token=" +:+ urlencode token)
  end.

Definition sendEmail (email subject content : string) : M unit :=
  try_catch
    (let* e := process_env in
     mailerService_sendMail
       {| mail_from := or_else (SMTP_FROM e) "stationphast@gmail.com";
          mail_to := email;
          mail_subject := subject;
          mail_html := content |})
    (λ error, throw (InternalServerErrorException "Error sending email")).

Definition generateEmailTemplate (content : string) : string :=
  nl +:+ "        <body style=" +:+ dq
     +:+ "font-family: Arial, sans-serif; text-align: center;" +:+ dq
     +:+ ">" +:+ nl
     +:+ "            " +:+ content +:+ nl
     +:+ "        </body>" +:+ nl
     +:+ "    ".

(** The text of the message before the link, and after it. *)
Definition before_link : string :=
  nl +:+ "        <h1>Welcome to MyLibrary!</h1>" +:+ nl
     +:+ "        <p>Please click the button below to verify your email address</p>"
     +:+ nl +:+ "        <a href=" +:+ dq.

Definition after_link : string :=
  dq +:+ " style=" +:+ dq
     +:+ "background-color: #007bff; color: white; padding: 10px 20px; border-radius: 5px; text-decoration: none;"
     +:+ dq +:+ ">" +:+ nl
     +:+ "          <button style=" +:+ dq
     +:+ "background-color: #007bff; color: white; padding: 10px 20px; text-decoration: none;"
     +:+ dq +:+ ">" +:+ nl
     +:+ "            Verify Email" +:+ nl
     +:+ "          </button>" +:+ nl
     +:+ "        </a>" +:+ nl
     +:+ "    ".

Definition sendEmailVerificationEmail (email token : string) : M unit :=
  let* verificationLink := generateVerificationLink token in
  let subject := "Email Verification" in
  let content :=
    generateEmailTemplate (before_link +:+ verificationLink +:+ after_link) in
  sendEmail email subject content.

Context {ids : ObjectIds}.

Definition findAll : M (list JsObject) :=
  try_catch prisma_user_findMany
    (λ error, throw (InternalServerErrorException "Error finding users")).

Definition findOne (id : string) : M JsObject :=
  try_catch
    (let* user := prisma_user_findUnique_id id in
     match user with
     | None => throw (BadRequestException "User not found")
     | Some user => ret user
     end)
    (λ error,
       if String.eqb (message_of error) "User not found" then
         throw (BadRequestException "User not found")
       else throw (InternalServerErrorException "Error finding user")).

Definition update (id : string) (data : JsObject) : M JsObject :=
  try_catch (prisma_user_update_id id data)
    (λ error, throw (InternalServerErrorException "Error updating user")).

Definition delete (id : string) : M JsObject :=
  try_catch (prisma_user_delete id)
    (λ error, throw (InternalServerErrorException "Error deleting user")).

End Service.
End UsersService.

(** ** auth/auth.service.ts *)

Module AuthService.
Section Service.
Context {ext : Externals}.

Definition create (createUserDto : CreateUserDto) : M JsObject :=
  UsersService.create createUserDto.

(** Modelled from the spec: the method that serves a request for a
    verification mail is not among the sources, only the two steps it is
    made of are ([generateEmailVerificationToken] and
    [sendEmailVerificationEmail] of [UsersService]).  Following the
    specification, it issues the token and hands it to the mail step. *)
Definition requestEmailVerification (email id : string) : M unit :=
  let* token := UsersService.generateEmailVerificationToken email id in
  UsersService.sendEmailVerificationEmail email (token_text token).

End Service.
End AuthService.

(** ** The earlier revision of users.service.ts *)

(** The shorter [UsersService] the repository also holds: the secret is
    a field read from the environment with [??], the username is taken
    from the email, and verification only decodes. *)

(** [s.split('@')[0]]: the text before the first [@], all of [s] when
    there is none. *)
Fixpoint before_at (s : string) : string :=
  match s with
  | EmptyString => EmptyString
  | String c r =>
      if Ascii.eqb c (ascii_of_nat 64) then EmptyString
      else String c (before_at r)
  end.




(** [jwt.sign] with a key that may be empty: an empty key is refused with a
    plain error. *)
Definition jwt_sign_key (c : JsObject) (secret : string) (expiresIn : Z)
    (now : Z) : Exn + Token :=
  if decide (secret = EmptyString) then
    inl (PlainError "secretOrPrivateKey must have a value")
  else inr (jwt_sign c secret expiresIn now).

(** [jwt.verify] with a key that may be empty: a well-formed token is
    refused when no key is given. *)
Definition jwt_verify_key (t : Token) (secret : string) (now : Z)
  : Exn + JwtPayload :=
  match t with
  | Raw _ => jwt_verify t secret now
  | Jws _ _ =>
      if decide (secret = EmptyString) then
        inl (JsonWebTokenError "secret or public key must be provided")
      else jwt_verify t secret now
  end.

Module EarlierUsersService.
Section Service.
Context {ext : Externals}.

(** [process.env.JWT_SECRET ?? 'development']: only an unset variable
    gives the fallback. *)
Definition secret : M string :=
  let* e := process_env in
  ret (default "development" (JWT_SECRET e)).

Definition create (data : CreateUserDto) : M JsObject :=
  let* existingUser := prisma_user_findUnique (email data) in
  match existingUser with
  | Some _ =>
      throw (BadRequestException
               "The email address is already associated with an account.")
  | None =>
      let* hashedPassword := argon2_hash_call (password data) in
      try_catch
        (let* row :=
           prisma_user_create (email data) (before_at (email data))
             hashedPassword in
         ret (delete "password" row))
        (λ error, throw (BadRequestException "Error creating user"))
  end.

Definition generateEmailVerificationToken (email : string) : M Token :=
  let* user := prisma_user_findUnique email in
  match user with
  | None => throw (BadRequestException "User not found")
  | Some _ =>
      let* s := secret in
      let* now := Date_now in
      lift (jwt_sign_key {[ "email" := VStr email ]} s one_hour now)
  end.

Definition verifyEmailVerificationToken (token : Token) : M JwtPayload :=
  try_catch
    (let* s := secret in
     let* now := Date_now in
     lift (jwt_verify_key token s now))
    (λ error, throw (BadRequestException "Invalid token")).

End Service.
End EarlierUsersService.

(** ** Cookies *)

(** A call of [res.cookie]. *)
Record Cookie := mkCookie {
  cookie_name : string;
  cookie_value : string;
  cookie_options : JsObject
}.

(** The response: the cookies set on it so far, and the body sent. *)
Record Response := mkResponse {
  cookies : list Cookie;
  body : option JsObject
}.

Definition res_cookie (name value : string) (options : JsObject)
    (res : Response) : Response :=
  {| cookies := cookies res ++ [mkCookie name value options];
     body := body res |}.

Definition res_json (b : JsObject) (res : Response) : Response :=
  {| cookies := cookies res; body := Some b |}.

Definition access_maxAge : Z := 24 * 60 * 60 * 1000.
Definition refresh_maxAge : Z := 7 * 24 * 60 * 60 * 1000.

Definition setAuthCookies (res : Response) (accessToken refreshToken : string)
    (cookieOptions : JsObject) : Response :=
  let res :=
    res_cookie "accessToken" accessToken
      (<["maxAge" := VNum access_maxAge]> cookieOptions) res in
  res_cookie "refreshToken" refreshToken
    (<["maxAge" := VNum refresh_maxAge]> cookieOptions) res.

(** ** auth.controller.ts *)

(** [LoginDto] *)
Record LoginDto := mkLogin {
  login_email : string;
  login_password : string
}.

(** [req.user], when a guard has set it. *)
Record RequestUser := mkRequestUser {
  user_id : option string;
  user_refreshToken : option string
}.

Record Request := mkRequest {
  req_user : option RequestUser
}.

(** The methods of [AuthService] the controller calls that are not among
    the sources, and [tokenService.isProduction()]. *)
Class LaterServices := {
  authService_verifyEmail : Token → M string;
  authService_login : LoginDto → M (string * string);
  authService_profile : string → M JsObject;
  authService_updateProfile : string → JsObject → M JsObject;
  authService_refreshTokens : option string → M JsObject;
  authService_logout : string → M unit;
  tokenService_isProduction : bool
}.

Module AuthController.
Section Controller.
Context {ext : Externals} {later : LaterServices}.

Definition cookieOptions : JsObject :=
  <["httpOnly" := VBool true]>
  (<["secure" := VBool tokenService_isProduction]>
  (<["sameSite" :=
       VStr (if tokenService_isProduction then "none" else "lax")]>
  (<["path" := VStr "/"]> ∅))).

(** [catch (error) { Logger.error(...); throw error; }] *)
Definition rethrow {A} (error : Exn) : M A := throw error.

(** [req.user], read for its [id]: the read fails on a request that has
    no [user]. *)
Definition request_user (req : Request) : M RequestUser :=
  match req_user req with
  | None =>
      throw (TypeError "Cannot read properties of undefined (reading 'id')")
  | Some user => ret user
  end.

Definition create (createUserDto : CreateUserDto) : M JsObject :=
  try_catch (AuthService.create createUserDto) rethrow.

Definition verifyEmail (token : option Token) : M string :=
  try_catch
    (match token with
     | None => throw (PlainError "Token is required")
     | Some t =>
         if falsy t then throw (PlainError "Token is required")
         else authService_verifyEmail t
     end)
    rethrow.

Definition login (loginDto : LoginDto) (res : Response) : M Response :=
  try_catch
    (let* tokens := authService_login loginDto in
     let res :=
       res_cookie "accessToken" tokens.1
         (<["maxAge" := VNum (24 * 60 * 60 * 1000)]> cookieOptions) res in
     let res :=
       res_cookie "refreshToken" tokens.2
         (<["maxAge" := VNum (7 * 24 * 60 * 60 * 1000)]> cookieOptions) res in
     ret (res_json {[ "message" := VStr "Login successful" ]} res))
    rethrow.

Definition profile (req : Request) : M JsObject :=
  try_catch
    (let* user := request_user req in
     match nonempty (user_id user) with
     | None => throw (PlainError "User id is required")
     | Some id => authService_profile id
     end)
    rethrow.

Definition update (req : Request) (updateUserDto : JsObject) : M JsObject :=
  try_catch
    (let* user := request_user req in
     match nonempty (user_id user) with
     | None => throw (PlainError "User id is required")
     | Some id => authService_updateProfile id updateUserDto
     end)
    rethrow.

Definition refreshTokens (req : Request) : M JsObject :=
  try_catch
    (let* user := request_user req in
     match nonempty (user_id user) with
     | None => throw (PlainError "User id is required")
     | Some _ => authService_refreshTokens (user_refreshToken user)
     end)
    rethrow.

Definition logout (req : Request) : M JsObject :=
  try_catch
    (let* user := request_user req in
     match nonempty (user_id user) with
     | None => throw (PlainError "User id is required")
     | Some id =>
         let* _ := authService_logout id in
         ret {[ "message" := VStr "Logout successful" ]}
     end)
    rethrow.

End Controller.
End AuthController.

(** ** Sample data *)

(** Stand-ins for the externals and a few worlds, to run the services on
    concrete requests. *)
Module Sample.

Definition externals : Externals := {|
  argon2_hash p := "$argon2id$v=19$m=65536,t=3,p=4$" +:+ p;
  ObjectId n := "65f0c0ffee" +:+ pretty n;
  jws_compact p k := "eyJhbGciOiJIUzI1NiJ9." +:+ pretty (iat p);
  URL_href input base :=
    if String.prefix "http" base then Some (base +:+ input) else None;
  urlencode s := s
|}.

Definition development : Env :=
  {| JWT_SECRET := None; NODE_ENV := None; API_URL := None;
     SMTP_FROM := None |}.

Definition production_without_secret : Env :=
  {| JWT_SECRET := None; NODE_ENV := Some "production"; API_URL := None;
     SMTP_FROM := None |}.

Definition configured : Env :=
  {| JWT_SECRET := Some "s3cret"; NODE_ENV := Some "production";
     API_URL := Some "https://library.example"; SMTP_FROM := None |}.

Definition ada : JsObject :=
  new_user (ext := externals) 0 50 "ada@x.com" "ada" "$argon2id$digest".

(** One registered user, at time [now]. *)
Definition world (e : Env) (now : Z) : World :=
  {| env := e; clock := now; users := [ada]; created := 1; smtp_up := true;
     outbox := []; calls := [] |}.

Definition dto_ada : CreateUserDto :=
  {| email := "ada@x.com"; username := "countess"; password := "P@ss1" |}.

Definition dto_bob : CreateUserDto :=
  {| email := "bob@x.com"; username := "bob"; password := "P@ss1" |}.

Definition dto_eve : CreateUserDto :=
  {| email := "eve@x.com"; username := "ada"; password := "P@ss1" |}.

Definition dev : World := world development 100.

Definition prod : World := world production_without_secret 100.

Definition live : World := world configured 200.

(** The token ada was sent at time 100. *)
Definition ada_token : Token :=
  jwt_sign {[ "email" := VStr "ada@x.com" ]} "s3cret" one_hour 100.

(** The ids of the first documents, as the store reads them. *)
Definition ids : ObjectIds := {|
  parse_ObjectId s :=
    if decide (s = "65f0c0ffee0") then Some 0%N
    else if decide (s = "65f0c0ffee1") then Some 1%N
    else if decide (s = "65f0c0ffee2") then Some 2%N
    else None
|}.

Definition ada_id : string := "65f0c0ffee0".

(** Stand-ins for the services the controller needs. *)
Definition later : LaterServices := {|
  authService_verifyEmail := UsersService.verifyEmailVerificationToken;
  authService_login dto :=
    if decide (login_email dto = "ada@x.com") then ret ("access", "refresh")
    else throw (BadRequestException "Invalid credentials");
  authService_profile := UsersService.findOne (ext := externals) (ids := ids);
  authService_updateProfile :=
    UsersService.update (ext := externals) (ids := ids);
  authService_refreshTokens _ := ret ∅;
  authService_logout _ := ret tt;
  tokenService_isProduction := true
|}.

Definition dto_ada_elsewhere : CreateUserDto :=
  {| email := "ada@y.org"; username := "lovelace"; password := "P@ss2" |}.

Definition empty_response : Response := {| cookies := []; body := None |}.

Definition dto_bob_again : CreateUserDto :=
  {| email := "bob@x.com"; username := "robert"; password := "0ther" |}.

Definition dto_bob_elsewhere : CreateUserDto :=
  {| email := "bob@y.org"; username := "bobby"; password := "P@ss3" |}.

Definition dto_ada_back : CreateUserDto :=
  {| email := "ada@x.com"; username := "ada"; password := "P@ss4" |}.

(** The world [dev] with a base address the [URL] constructor refuses. *)
Definition dev_bad_url : World :=
  world {| JWT_SECRET := None; NODE_ENV := None;
           API_URL := Some "localhost:8080"; SMTP_FROM := None |} 100.

(** The world [dev] with the secret set to the empty string. *)
Definition dev_empty_secret : World :=
  world {| JWT_SECRET := Some EmptyString; NODE_ENV := None;
           API_URL := None; SMTP_FROM := None |} 100.

(** The token the service issues for ada in [dev]. *)
Definition ada_dev_token : Token :=
  jwt_sign {[ "email" := VStr "ada@x.com" ]} "default-secret" one_hour 100.

Definition ada_request : Request :=
  {| req_user :=
       Some {| user_id := Some ada_id; user_refreshToken := None |} |}.

End Sample.

(** * Properties *)

(** Some stored user has the value [v] under [k]. *)
Definition taken (k : string) (v : JsVal) (w : World) : Prop :=
  ∃ u, u ∈ users w ∧ u !! k = Some v.

Definition email_taken (e : string) (w : World) : Prop :=
  taken "email" (VStr e) w.

Definition username_taken (n : string) (w : World) : Prop :=
  taken "username" (VStr n) w.

(** The clock moves on to [t]. *)
Definition at_time (t : Z) (w : World) : World :=
  {| env := env w; clock := t; users := users w; created := created w;
     smtp_up := smtp_up w; outbox := outbox w; calls := calls w |}.

(** The calls a registration makes once the email is found free. *)
Definition register_calls {ext : Externals} (data : CreateUserDto) : list Call :=
  [ CallFindUnique (email data);
    CallHash (password data);
    CallCreate (email data) (username data) (argon2_hash (password data)) ].

(** The row a successful registration stores. *)
Definition registered_row {ext : Externals} (data : CreateUserDto) (w : World) : JsObject :=
  new_user (created w) (clock w) (email data) (username data)
    (argon2_hash (password data)).

Definition logs (cs : list Call) (w : World) : World :=
  fold_left (λ w c, log c w) cs w.

(** [!secret]: the variable is unset, or set to the empty string. *)
Definition secret_absent (e : Env) : Prop := nonempty (JWT_SECRET e) = None.

(** The exception the [catch] of [verifyEmailVerificationToken] throws for
    the error it caught. *)
Definition rethrown (e : Exn) : Exn :=
  if String.eqb (name e) "TokenExpiredError" then TokenExpired
  else InvalidToken.

Definition verified_flag : JsObject := {[ "emailIsVerified" := VBool true ]}.

(** What the guarded part of [verifyEmailVerificationToken] validates
    before it touches the store: the secret resolves and [jwt.verify]
    accepts the token at the current time. *)
Definition validate (token : Token) (w : World) : Exn + JwtPayload :=
  match (UsersService.secret w).1 with
  | Return s => jwt_verify token s (clock w)
  | Throw e => inl e
  end.

(** The base the link is built on. *)
Definition base_url (w : World) : string :=
  or_else (API_URL (env w)) "http://localhost:8080".

(** The message [sendEmailVerificationEmail] builds around a link. *)
Definition verification_mail (w : World) (email link : string) : Mail :=
  {| mail_from := or_else (SMTP_FROM (env w)) "stationphast@gmail.com";
     mail_to := email;
     mail_subject := "Email Verification";
     mail_html :=
       UsersService.generateEmailTemplate
         (UsersService.before_link +:+ link +:+ UsersService.after_link) |}.

(** Two rows agree on every field but [updatedAt]. *)
Definition same_but_stamp (a b : JsObject) : Prop :=
  ∀ k, k ≠ "updatedAt" → a !! k = b !! k.

(** Two rows agree on every field outside [ks]. *)
Definition same_but (ks : list string) (a b : JsObject) : Prop :=
  ∀ k, k ∉ ks → a !! k = b !! k.

(** No two rows of [l] have the same value under [k]. *)
Definition unique_on (k : string) (l : list JsObject) : Prop :=
  NoDup (omap (λ u : JsObject, u !! k) l).

(** What [@unique] asks of the collection. *)
Definition unique_store (w : World) : Prop :=
  unique_on "email" (users w) ∧ unique_on "username" (users w).

(** The errors of the reads and writes by id. *)
Definition FindFailed : Exn :=
  InternalServerErrorException "Error finding user".
Definition UpdateFailed : Exn :=
  InternalServerErrorException "Error updating user".
Definition DeleteFailed : Exn :=
  InternalServerErrorException "Error deleting user".

(** The row [u] after an update by id with [data] at time [now]. *)
Definition written (data : JsObject) (now : Z) (u : JsObject) : JsObject :=
  data ∪ <["updatedAt" := VNum now]> u.

(** The first row with the id the string [id] denotes. *)
Definition by_id {ext : Externals} {ids : ObjectIds} (id : string)
    (w : World) : option JsObject :=
  match parse_ObjectId id with
  | Some n => find (has "id" (VStr (ObjectId n))) (users w)
  | None => None
  end.

(** ** The services on the sample data *)

Example secret_in_development :
  (UsersService.secret Sample.dev).1 = Return "default-secret".
Proof. reflexivity. Qed.

Example create_bob :
  (AuthService.create (ext := Sample.externals) Sample.dto_bob Sample.dev).1
  = Return (delete "password"
              (new_user (ext := Sample.externals) 1 100 "bob@x.com" "bob"
                 "$argon2id$v=19$m=65536,t=3,p=4$P@ss1")).
Proof. reflexivity. Qed.

Example create_eve_username_in_use :
  (AuthService.create (ext := Sample.externals) Sample.dto_eve Sample.dev).1
  = Throw (BadRequestException "Error creating user").
Proof. reflexivity. Qed.

Example link_in_development :
  (UsersService.generateVerificationLink (ext := Sample.externals)
     "abc.def.ghi" Sample.dev).1
  = Return "http://localhost:8080/verify-email?token=abc.def.ghi".
Proof. reflexivity. Qed.

Example verify_at_the_last_second :
  (UsersService.verifyEmailVerificationToken Sample.ada_token
     (Sample.world Sample.configured 3699)).1
  = Return "Email verified successfully"
  ∧ (UsersService.verifyEmailVerificationToken Sample.ada_token
       (Sample.world Sample.configured 3700)).1
    = Throw (BadRequestException "Token has expired").
Proof. split; reflexivity. Qed.

Example verify_with_another_key :
  (UsersService.verifyEmailVerificationToken Sample.ada_token Sample.dev).1
  = Throw (BadRequestException "Invalid token").
Proof. reflexivity. Qed.

(** ** Lookups in the store *)

Lemma has_true k v u : has k v u = true ↔ u !! k = Some v.
Proof. unfold has. apply bool_decide_eq_true. Qed.

Lemma taken_existsb k v w :
  taken k v w ↔ existsb (has k v) (users w) = true.
Proof.
  unfold taken. rewrite existsb_exists. split.
  - intros (u & Hin & Hu). exists u. split.
    + by apply list_elem_of_In.
    + by apply has_true.
  - intros (u & Hin & Hu). exists u. split.
    + by apply list_elem_of_In.
    + by apply has_true.
Qed.

Lemma not_taken_existsb k v w :
  ¬ taken k v w ↔ existsb (has k v) (users w) = false.
Proof. rewrite taken_existsb. apply not_true_iff_false. Qed.

Lemma taken_find k v w :
  taken k v w ↔ ∃ u, find (has k v) (users w) = Some u.
Proof.
  split.
  - intros (u & Hin & Hu).
    destruct (find (has k v) (users w)) as [u'|] eqn:E; [by exists u'|].
    apply list_elem_of_In in Hin.
    pose proof (find_none _ _ E u Hin) as Hn.
    apply has_true in Hu. congruence.
  - intros (u & E). apply find_some in E as [Hin Hu].
    exists u. split; [by apply list_elem_of_In | by apply has_true].
Qed.

Lemma not_taken_find k v w :
  ¬ taken k v w ↔ find (has k v) (users w) = None.
Proof.
  rewrite taken_find. split.
  - intros Hn. destruct (find _ _) as [u|]; [|done]. destruct Hn. by exists u.
  - intros E (u & Hu). congruence.
Qed.

(** ** Running a computation *)

Lemma bind_return {A B} (m : M A) (k : A → M B) w a w' :
  m w = (Return a, w') → bind m k w = k a w'.
Proof. unfold bind. by intros ->. Qed.

Lemma bind_throw {A B} (m : M A) (k : A → M B) w e w' :
  m w = (Throw e, w') → bind m k w = (Throw e, w').
Proof. unfold bind. by intros ->. Qed.

Lemma try_return {A} (m : M A) (h : Exn → M A) w a w' :
  m w = (Return a, w') → try_catch m h w = (Return a, w').
Proof. unfold try_catch. by intros ->. Qed.

Lemma try_throw {A} (m : M A) (h : Exn → M A) w e w' :
  m w = (Throw e, w') → try_catch m h w = h e w'.
Proof. unfold try_catch. by intros ->. Qed.

(** ** Registration *)

Section Registration.
Context {ext : Externals}.

Lemma users_logs cs w : users (logs cs w) = users w.
Proof. revert w. induction cs as [|c cs IH]; intros w; [done|]. simpl. by rewrite IH. Qed.

Lemma created_logs cs w : created (logs cs w) = created w.
Proof. revert w. induction cs as [|c cs IH]; intros w; [done|]. simpl. by rewrite IH. Qed.

Lemma calls_logs cs w : calls (logs cs w) = calls w ++ cs.
Proof.
  revert w. induction cs as [|c cs IH]; intros w; simpl.
  - by rewrite app_nil_r.
  - rewrite IH. simpl. by rewrite <- app_assoc.
Qed.

Lemma create_duplicate data w :
  email_taken (email data) w →
  UsersService.create data w
  = (Throw DuplicateEmail, log (CallFindUnique (email data)) w).
Proof.
  intros Ht. apply taken_find in Ht as [u E].
  unfold UsersService.create, bind, prisma_user_findUnique.
  by rewrite E.
Qed.

Lemma create_conflict data w :
  ¬ email_taken (email data) w →
  username_taken (username data) w →
  UsersService.create data w
  = (Throw CreateFailed, logs (register_calls data) w).
Proof.
  intros He Hu.
  pose proof (proj1 (not_taken_find _ _ _) He) as E.
  apply taken_existsb in Hu.
  unfold UsersService.create, bind, prisma_user_findUnique,
    argon2_hash_call, try_catch, prisma_user_create.
  rewrite E. cbn [users log]. rewrite Hu, orb_true_r. reflexivity.
Qed.

Lemma create_fresh data w :
  ¬ email_taken (email data) w →
  ¬ username_taken (username data) w →
  UsersService.create data w
  = (Return (delete "password" (registered_row data w)),
     set_users (users w ++ [registered_row data w]) (N.succ (created w))
       (logs (register_calls data) w)).
Proof.
  intros He Hu.
  pose proof (proj1 (not_taken_find _ _ _) He) as E.
  apply not_taken_existsb in He, Hu.
  unfold UsersService.create, bind, prisma_user_findUnique,
    argon2_hash_call, try_catch, prisma_user_create.
  rewrite E. cbn [users log]. rewrite He, Hu. reflexivity.
Qed.

Lemma taken_dec k v w : {taken k v w} + {¬ taken k v w}.
Proof.
  destruct (existsb (has k v) (users w)) eqn:E.
  - left. by apply taken_existsb.
  - right. by apply not_taken_existsb.
Qed.

(** C1, as amended.  A registration whose email is the email of a
    stored user fails with [DuplicateEmail], and nothing is stored.  One
    whose email matches no stored user does not fail with
    [DuplicateEmail]: after the lookup it hashes the password and asks the
    store to create the user with the digest.  When the username is not
    that of a stored user either, the user is persisted: the store is the
    old one followed by the new row, which holds the email, the username
    and the digest, and the row is returned without its password.  When
    the username is that of a stored user, the store rejects the creation:
    the registration fails with the creation error and the store is as it
    was. *)
Theorem register_duplicate_email (data : CreateUserDto) (w : World) :
  let after := AuthService.create data w in
  (email_taken (email data) w →
     after.1 = Throw DuplicateEmail
     ∧ users after.2 = users w
     ∧ calls after.2 = calls w ++ [CallFindUnique (email data)])
  ∧ (¬ email_taken (email data) w →
     after.1 ≠ Throw DuplicateEmail
     ∧ calls after.2 = calls w ++ register_calls data
     ∧ (¬ username_taken (username data) w →
          after.1 = Return (delete "password" (registered_row data w))
          ∧ users after.2 = users w ++ [registered_row data w]
          ∧ created after.2 = N.succ (created w)
          ∧ registered_row data w !! "email" = Some (VStr (email data))
          ∧ registered_row data w !! "username"
            = Some (VStr (username data))
          ∧ registered_row data w !! "password"
            = Some (VStr (argon2_hash (password data)))
          ∧ email_taken (email data) after.2)
     ∧ (username_taken (username data) w →
          after.1 = Throw CreateFailed
          ∧ users after.2 = users w
          ∧ created after.2 = created w
          ∧ ¬ email_taken (email data) after.2)).
Proof.
  intros after. subst after. unfold AuthService.create. split.
  - intros Ht. rewrite create_duplicate by done. done.
  - intros He. split_and!.
    + destruct (taken_dec "username" (VStr (username data)) w) as [Hu|Hu].
      * by rewrite create_conflict.
      * by rewrite create_fresh.
    + destruct (taken_dec "username" (VStr (username data)) w) as [Hu|Hu].
      * rewrite create_conflict by done. cbn [fst snd]. by rewrite calls_logs.
      * rewrite create_fresh by done. cbn [fst snd set_users calls].
        by rewrite calls_logs.
    + intros Hu. rewrite create_fresh by done.
      cbn [fst snd set_users users created].
      split_and!; try done.
      by (exists (registered_row data w); split; [|done];
        cbn [users]; apply elem_of_app; right; apply list_elem_of_singleton).
    + intros Hu. rewrite create_conflict by done. cbn [fst snd].
      rewrite users_logs, created_logs. by split_and!.
Qed.

(** C2. For a triple whose email and username are not registered yet,
    registration succeeds; the record returned has no [password] field;
    the row that is stored holds the digest of the password under
    [password], which is not the plaintext as long as the hasher does not
    return its input. *)
Theorem register_stores_digest (data : CreateUserDto) (w : World) :
  ¬ email_taken (email data) w →
  ¬ username_taken (username data) w →
  argon2_hash (password data) ≠ password data →
  ∃ row result,
    (AuthService.create data w).1 = Return result
    ∧ result = delete "password" row
    ∧ result !! "password" = None
    ∧ result !! "email" = Some (VStr (email data))
    ∧ result !! "username" = Some (VStr (username data))
    ∧ users (AuthService.create data w).2 = users w ++ [row]
    ∧ row !! "email" = Some (VStr (email data))
    ∧ row !! "username" = Some (VStr (username data))
    ∧ row !! "password" = Some (VStr (argon2_hash (password data)))
    ∧ row !! "password" ≠ Some (VStr (password data)).
Proof.
  intros He Hu Hh. unfold AuthService.create.
  rewrite create_fresh by done. cbn [fst snd set_users users].
  exists (registered_row data w), (delete "password" (registered_row data w)).
  assert (registered_row data w !! "password"
          = Some (VStr (argon2_hash (password data)))) as Hp by done.
  unfold registered_row, new_user in *.
  split_and!; try done.
  rewrite Hp. intros [= E]. done.
Qed.

(** C6. A registration that fails, with the duplicate-email error or with
    the creation error that follows a rejected write, leaves the [users]
    collection as it was: no row is added and none is changed. *)
Theorem failed_register_keeps_store (data : CreateUserDto) (w : World)
    (e : Exn) :
  (AuthService.create data w).1 = Throw e →
  users (AuthService.create data w).2 = users w
  ∧ created (AuthService.create data w).2 = created w
  ∧ (e = DuplicateEmail ∧ email_taken (email data) w
     ∨ e = CreateFailed ∧ ¬ email_taken (email data) w
       ∧ username_taken (username data) w
       ∧ CallHash (password data) ∈ calls (AuthService.create data w).2).
Proof.
  unfold AuthService.create.
  destruct (taken_dec "email" (VStr (email data)) w) as [He|He].
  - rewrite create_duplicate by done. cbn [fst snd log users created].
    intros [= <-]. split_and!; [done | done | by left].
  - destruct (taken_dec "username" (VStr (username data)) w) as [Hu|Hu].
    + rewrite create_conflict by done. cbn [fst snd].
      rewrite users_logs, created_logs, calls_logs.
      intros [= <-]. split_and!; [done | done |]. right. split_and!; try done.
      apply elem_of_app. right. apply list_elem_of_In. simpl. tauto.
    + rewrite create_fresh by done. discriminate.
Qed.

End Registration.

(** C1 as first stated does not hold for a request whose email matches no
    stored user and whose username is that of a stored user: the email of
    [dto_eve] is new and her username is Ada's.  The registration passes
    the lookup and hashes the password, the store rejects the creation, and
    the user is not persisted: the registration fails with the creation
    error and the store holds Ada alone, as before. *)
Lemma register_username_in_use :
  let after :=
    AuthService.create (ext := Sample.externals) Sample.dto_eve Sample.dev in
  ¬ email_taken (email Sample.dto_eve) Sample.dev
  ∧ username_taken (username Sample.dto_eve) Sample.dev
  ∧ after.1 = Throw CreateFailed
  ∧ users after.2 = [Sample.ada]
  ∧ users after.2 = users Sample.dev
  ∧ ¬ email_taken (email Sample.dto_eve) after.2
  ∧ CallHash (password Sample.dto_eve) ∈ calls after.2.
Proof.
  split_and!; try reflexivity.
  - by apply not_taken_existsb.
  - by apply taken_existsb.
  - by apply not_taken_existsb.
  - apply list_elem_of_In. vm_compute. tauto.
Qed.

(** ** The signing secret *)

Lemma secret_state w : (UsersService.secret w).2 = w.
Proof.
  unfold UsersService.secret, bind, process_env.
  destruct (nonempty _); [done|]. by case_bool_decide.
Qed.

Lemma secret_eq w r : (UsersService.secret w).1 = r → UsersService.secret w = (r, w).
Proof.
  intros <-. rewrite <- (secret_state w) at 3. by destruct (UsersService.secret w).
Qed.

Lemma secret_production w :
  secret_absent (env w) → NODE_ENV (env w) = Some "production" →
  UsersService.secret w = (Throw ConfigurationError, w).
Proof.
  unfold secret_absent, UsersService.secret, bind, process_env.
  intros -> ->. reflexivity.
Qed.

Lemma secret_fallback w :
  secret_absent (env w) → NODE_ENV (env w) ≠ Some "production" →
  UsersService.secret w = (Return "default-secret", w).
Proof.
  unfold secret_absent, UsersService.secret, bind, process_env.
  intros -> Hn. by rewrite bool_decide_eq_true_2.
Qed.

Lemma secret_configured w s :
  JWT_SECRET (env w) = Some s → s ≠ EmptyString →
  UsersService.secret w = (Return s, w).
Proof.
  unfold UsersService.secret, bind, process_env.
  intros -> Hs. destruct s; [done|]. reflexivity.
Qed.

(** ** Issuing and verifying *)

Lemma generate_unknown email id w :
  ¬ email_taken email w →
  UsersService.generateEmailVerificationToken email id w
  = (Throw UserNotFound, log (CallFindUnique email) w).
Proof.
  intros He. apply not_taken_find in He.
  unfold UsersService.generateEmailVerificationToken, bind,
    prisma_user_findUnique.
  by rewrite He.
Qed.

Lemma generate_known email id w :
  email_taken email w →
  UsersService.generateEmailVerificationToken email id w
  = match (UsersService.secret w).1 with
    | Return s =>
        (Return (jwt_sign {[ "email" := VStr email ]} s one_hour (clock w)),
         log (CallFindUnique email) w)
    | Throw e => (Throw e, log (CallFindUnique email) w)
    end.
Proof.
  intros He. apply taken_find in He as [u E].
  unfold UsersService.generateEmailVerificationToken, bind,
    prisma_user_findUnique.
  rewrite E.
  unfold UsersService.secret, bind, process_env, Date_now. cbn [env log].
  destruct (nonempty _); [reflexivity|].
  destruct (bool_decide _); reflexivity.
Qed.

Lemma verify_rejected token w s e :
  (UsersService.secret w).1 = Return s →
  jwt_verify token s (clock w) = inl e →
  UsersService.verifyEmailVerificationToken token w
  = (Throw (rethrown e), w).
Proof.
  intros Hs Hv. apply secret_eq in Hs.
  unfold UsersService.verifyEmailVerificationToken.
  destruct (falsy token) eqn:Hf.
  - destruct token as [|[|]]; try discriminate.
    cbn in Hv. by injection Hv as <-.
  - erewrite try_throw.
    2:{ erewrite bind_return by done.
        erewrite bind_return by reflexivity.
        apply bind_throw. rewrite Hv. reflexivity. }
    unfold rethrown.
    destruct (String.eqb (name e) "TokenExpiredError"); reflexivity.
Qed.

Lemma verify_accepted token w s p :
  (UsersService.secret w).1 = Return s →
  jwt_verify token s (clock w) = inr p →
  UsersService.verifyEmailVerificationToken token w
  = match prisma_user_update (claims p !! "email") verified_flag w with
    | (Return _, w') => (Return "Email verified successfully", w')
    | (Throw e, w') => (Throw (rethrown e), w')
    end.
Proof.
  intros Hs Hv. apply secret_eq in Hs.
  unfold UsersService.verifyEmailVerificationToken.
  destruct (falsy token) eqn:Hf.
  - destruct token as [|[|]]; discriminate.
  - unfold verified_flag.
    destruct (prisma_user_update _ _ w) as [[row|e] w'] eqn:Hu.
    + erewrite try_return; [done|].
      erewrite bind_return by done.
      erewrite bind_return by reflexivity.
      erewrite bind_return by (rewrite Hv; reflexivity).
      erewrite bind_return by done. reflexivity.
    + erewrite try_throw.
      2:{ erewrite bind_return by done.
          erewrite bind_return by reflexivity.
          erewrite bind_return by (rewrite Hv; reflexivity).
          by apply bind_throw. }
      unfold rethrown.
      destruct (String.eqb (name e) "TokenExpiredError"); reflexivity.
Qed.

Lemma check_exp_accepts q now p :
  check_exp q now = inr p → p = q ∧ ∀ e, exp p = Some e → now < e.
Proof.
  unfold check_exp. destruct (exp q) as [e|] eqn:E.
  - destruct (decide (e <= now)); [discriminate|].
    intros [= <-]. split; [done|]. intros e' He'. rewrite E in He'.
    injection He' as <-. lia.
  - intros [= <-]. split; [done|]. intros e' He'. congruence.
Qed.

Lemma jwt_verify_accepts t s now p :
  jwt_verify t s now = inr p →
  t = Jws p s ∧ ∀ e, exp p = Some e → now < e.
Proof.
  destruct t as [q k|[|]]; cbn; try discriminate.
  destruct (decide (k = s)) as [->|]; [|discriminate].
  destruct (claims q !! "nbf") as [[| |n|]|]; try discriminate.
  - destruct (decide (now < n)); [discriminate|].
    intros [-> H]%check_exp_accepts. done.
  - intros [-> H]%check_exp_accepts. done.
Qed.

(** A token under the key whose payload has no [nbf]: only the expiry is
    checked. *)
Lemma jwt_verify_plain p s now :
  claims p !! "nbf" = None →
  jwt_verify (Jws p s) s now = check_exp p now.
Proof. intros H. cbn. rewrite decide_True by done. by rewrite H. Qed.

(** ** Updating a row *)

Lemma update_first_at p g l1 u l2 :
  Forall (λ v, p v = false) l1 → p u = true →
  update_first p g (l1 ++ u :: l2) = Some (g u, l1 ++ g u :: l2).
Proof.
  intros Hl Hu. induction Hl as [|v l1 Hv Hl IH]; simpl.
  - by rewrite Hu.
  - by rewrite Hv, IH.
Qed.

Lemma find_at (p : JsObject → bool) l1 u l2 :
  Forall (λ v, p v = false) l1 → p u = true →
  find p (l1 ++ u :: l2) = Some u.
Proof.
  intros Hl Hu. induction Hl as [|v l1 Hv Hl IH]; simpl.
  - by rewrite Hu.
  - by rewrite Hv, IH.
Qed.

Lemma find_split (p : JsObject → bool) l u :
  find p l = Some u →
  ∃ l1 l2, l = l1 ++ u :: l2 ∧ p u = true ∧ Forall (λ v, p v = false) l1.
Proof.
  induction l as [|v r IH]; simpl; [done|].
  destruct (p v) eqn:Hv.
  - intros [= <-]. by exists [], r.
  - intros Hf. destruct (IH Hf) as (l1 & l2 & -> & Hu & Hl).
    exists (v :: l1), l2. split_and!; try done. by constructor.
Qed.

Lemma update_first_none p g l :
  find p l = None → update_first p g l = None.
Proof.
  induction l as [|v r IH]; simpl; [done|].
  destruct (p v); [done|]. intros Hf. by rewrite IH.
Qed.

Lemma updated_flag now (u : JsObject) :
  updated verified_flag now u !! "emailIsVerified" = Some (VBool true).
Proof.
  unfold updated, verified_flag.
  rewrite lookup_insert_ne by done.
  apply lookup_union_Some_l. apply lookup_singleton_eq.
Qed.

Lemma updated_other now (u : JsObject) k :
  k ≠ "updatedAt" → k ≠ "emailIsVerified" →
  updated verified_flag now u !! k = u !! k.
Proof.
  intros H1 H2. unfold updated, verified_flag.
  rewrite lookup_insert_ne by done.
  apply lookup_union_r. by apply lookup_singleton_ne.
Qed.

Lemma updated_has_email now (u : JsObject) e :
  has "email" (VStr e) (updated verified_flag now u) = has "email" (VStr e) u.
Proof. unfold has. by rewrite updated_other. Qed.

(** A later update with the same data overwrites an earlier one. *)
Lemma updated_updated data t1 t2 (u : JsObject) :
  updated data t2 (updated data t1 u) = updated data t2 u.
Proof.
  unfold updated. apply map_eq. intros k.
  destruct (decide (k = "updatedAt")) as [->|Hk].
  - by rewrite !lookup_insert_eq.
  - rewrite !lookup_insert_ne by done.
    rewrite !lookup_union. rewrite lookup_insert_ne by done.
    rewrite lookup_union. by destruct (data !! k), (u !! k).
Qed.

Lemma update_at e data w l1 u l2 :
  users w = l1 ++ u :: l2 →
  Forall (λ v, has "email" (VStr e) v = false) l1 →
  has "email" (VStr e) u = true →
  prisma_user_update (Some (VStr e)) data w
  = (Return (updated data (clock w) u),
     set_users (l1 ++ updated data (clock w) u :: l2) (created w)
       (log (CallUpdate (Some (VStr e)) data) w)).
Proof.
  intros Hl Hl1 Hu. unfold prisma_user_update. rewrite Hl.
  by rewrite update_first_at.
Qed.

Lemma update_known e data w u :
  find (has "email" (VStr e)) (users w) = Some u →
  ∃ l1 l2,
    users w = l1 ++ u :: l2
    ∧ Forall (λ v, has "email" (VStr e) v = false) l1
    ∧ prisma_user_update (Some (VStr e)) data w
      = (Return (updated data (clock w) u),
         set_users (l1 ++ updated data (clock w) u :: l2) (created w)
           (log (CallUpdate (Some (VStr e)) data) w)).
Proof.
  intros Hf. destruct (find_split _ _ _ Hf) as (l1 & l2 & Hl & Hu & Hl1).
  exists l1, l2. split_and!; try done. by apply update_at.
Qed.

Lemma update_unknown e data w :
  find (has "email" (VStr e)) (users w) = None →
  (prisma_user_update (Some (VStr e)) data w).1
  = Throw (PrismaClientKnownRequestError "P2025").
Proof.
  intros Hf. unfold prisma_user_update. by rewrite update_first_none.
Qed.

(** ** Token issuer *)

Lemma secret_throws w e :
  (UsersService.secret w).1 = Throw e → e = ConfigurationError.
Proof.
  unfold UsersService.secret, bind, process_env.
  destruct (nonempty _); [done|].
  destruct (bool_decide _); [done|]. by intros [= <-].
Qed.

Lemma verify_invalid token w e :
  validate token w = inl e →
  UsersService.verifyEmailVerificationToken token w = (Throw (rethrown e), w).
Proof.
  unfold validate. destruct (UsersService.secret w).1 as [s|e'] eqn:Hs.
  - by apply verify_rejected.
  - intros [= ->]. pose proof (secret_throws _ _ Hs) as ->.
    apply secret_eq in Hs.
    unfold UsersService.verifyEmailVerificationToken.
    destruct (falsy token); [reflexivity|].
    by erewrite try_throw by (by apply bind_throw).
Qed.

Lemma secret_env w w' :
  env w' = env w → (UsersService.secret w').1 = (UsersService.secret w).1.
Proof.
  intros He. unfold UsersService.secret, bind, process_env. rewrite He.
  destruct (nonempty _); [done|]. by destruct (bool_decide _).
Qed.

Lemma generate_state email id w :
  (UsersService.generateEmailVerificationToken email id w).2
  = log (CallFindUnique email) w.
Proof.
  destruct (taken_dec "email" (VStr email) w) as [He|He].
  - rewrite generate_known by done.
    by destruct (UsersService.secret w).1.
  - by rewrite generate_unknown.
Qed.

Lemma generate_returns email id w token :
  (UsersService.generateEmailVerificationToken email id w).1 = Return token →
  email_taken email w
  ∧ ∃ s, (UsersService.secret w).1 = Return s
         ∧ token = jwt_sign {[ "email" := VStr email ]} s one_hour (clock w).
Proof.
  destruct (taken_dec "email" (VStr email) w) as [He|He].
  - rewrite generate_known by done.
    destruct (UsersService.secret w).1 as [s|e]; [|done].
    intros [= <-]. split; [done|]. by exists s.
  - by rewrite generate_unknown.
Qed.

Lemma not_taken_Forall k v w :
  ¬ taken k v w → Forall (λ u, has k v u = false) (users w).
Proof.
  intros Hn. apply not_taken_existsb in Hn.
  induction (users w) as [|u l IH]; [constructor|].
  cbn in Hn. apply orb_false_iff in Hn as [Hu Hl].
  constructor; [done | by apply IH].
Qed.

(** The claims the service signs have no [nbf]. *)
Lemma email_claims_plain (email : string) :
  ({[ "email" := VStr email ]} : JsObject) !! "nbf" = None.
Proof. by apply lookup_singleton_ne. Qed.

Lemma jwt_sign_plain_verifies c s ttl issued now :
  c !! "nbf" = None →
  now < issued + ttl →
  jwt_verify (jwt_sign c s ttl issued) s now
  = inr {| claims := c; iat := issued; exp := Some (issued + ttl) |}.
Proof.
  intros Hc Hlt. unfold jwt_sign. rewrite jwt_verify_plain by done.
  unfold check_exp. cbn [exp]. by rewrite decide_False by lia.
Qed.

Lemma jwt_sign_plain_expires c s ttl issued now :
  c !! "nbf" = None →
  issued + ttl <= now →
  jwt_verify (jwt_sign c s ttl issued) s now
  = inl (TokenExpiredError "jwt expired").
Proof.
  intros Hc Hle. unfold jwt_sign. rewrite jwt_verify_plain by done.
  unfold check_exp. cbn [exp]. by rewrite decide_True by lia.
Qed.

Lemma jwt_sign_verifies email s ttl issued now :
  now < issued + ttl →
  jwt_verify (jwt_sign {[ "email" := VStr email ]} s ttl issued) s now
  = inr {| claims := {[ "email" := VStr email ]}; iat := issued;
           exp := Some (issued + ttl) |}.
Proof. apply jwt_sign_plain_verifies, email_claims_plain. Qed.

Lemma jwt_sign_expires email s ttl issued now :
  issued + ttl <= now →
  jwt_verify (jwt_sign {[ "email" := VStr email ]} s ttl issued) s now
  = inl (TokenExpiredError "jwt expired").
Proof. apply jwt_sign_plain_expires, email_claims_plain. Qed.

Lemma jwt_sign_other_key c s s' ttl issued now :
  s ≠ s' →
  jwt_verify (jwt_sign c s ttl issued) s' now
  = inl (JsonWebTokenError "invalid signature").
Proof. intros Hs. cbn. by rewrite decide_False. Qed.

(** The verification of a token that is accepted and names the row [u],
    the first with its email. *)
Lemma verify_at token w s p e l1 u l2 :
  (UsersService.secret w).1 = Return s →
  jwt_verify token s (clock w) = inr p →
  claims p !! "email" = Some (VStr e) →
  users w = l1 ++ u :: l2 →
  Forall (λ v, has "email" (VStr e) v = false) l1 →
  has "email" (VStr e) u = true →
  UsersService.verifyEmailVerificationToken token w
  = (Return "Email verified successfully",
     set_users (l1 ++ updated verified_flag (clock w) u :: l2) (created w)
       (log (CallUpdate (Some (VStr e)) verified_flag) w)).
Proof.
  intros Hs Hv Hc Hl Hl1 Hu.
  rewrite (verify_accepted _ _ _ _ Hs Hv), Hc.
  by rewrite (update_at e verified_flag w l1 u l2).
Qed.






(** ** Email verification *)

Lemma update_rejected where_email data w :
  (∀ e, where_email = Some (VStr e) →
        find (has "email" (VStr e)) (users w) = None) →
  ∃ x, prisma_user_update where_email data w
       = (Throw x, log (CallUpdate where_email data) w)
       ∧ rethrown x = InvalidToken.
Proof.
  intros Hw. unfold prisma_user_update.
  destruct where_email as [[| | |e]|]; try by eexists.
  rewrite update_first_none by by apply Hw. by eexists.
Qed.

(** C4. Whatever the token, when its validation fails the verification
    fails and the store is left alone: with [TokenExpired] when the token
    is past its expiry and with [InvalidToken] for every other failure, two
    errors that differ.  When the token validates and its email claim names
    a stored user, the verification succeeds and that user's
    [emailIsVerified] is [true] afterwards, the other rows being
    untouched.  A token that validates but names no stored user is
    refused with [InvalidToken] as well. *)
Theorem verifyEmail_outcomes (token : Token) (w : World) :
  let r := UsersService.verifyEmailVerificationToken token w in
  (∀ e, validate token w = inl e →
     users r.2 = users w
     ∧ (name e = "TokenExpiredError" → r.1 = Throw TokenExpired)
     ∧ (name e ≠ "TokenExpiredError" → r.1 = Throw InvalidToken))
  ∧ TokenExpired ≠ InvalidToken
  ∧ (∀ p e u, validate token w = inr p →
       claims p !! "email" = Some (VStr e) →
       find (has "email" (VStr e)) (users w) = Some u →
       r.1 = Return "Email verified successfully"
       ∧ ∃ u' l1 l2,
           users w = l1 ++ u :: l2
           ∧ users r.2 = l1 ++ u' :: l2
           ∧ find (has "email" (VStr e)) (users r.2) = Some u'
           ∧ u' !! "emailIsVerified" = Some (VBool true)
           ∧ ∀ k, k ≠ "emailIsVerified" → k ≠ "updatedAt" →
                  u' !! k = u !! k)
  ∧ (∀ p, validate token w = inr p →
       (∀ e, claims p !! "email" = Some (VStr e) →
             find (has "email" (VStr e)) (users w) = None) →
       r.1 = Throw InvalidToken ∧ users r.2 = users w).
Proof.
  intros r. subst r. split_and!.
  - intros e He. rewrite (verify_invalid _ _ _ He). cbn [fst snd].
    unfold rethrown. split_and!; [done | |].
    + intros ->. done.
    + intros Hn. destruct (String.eqb_spec (name e) "TokenExpiredError"); done.
  - done.
  - intros p e u Hv Hc Hf. unfold validate in Hv.
    destruct (UsersService.secret w).1 as [s|e'] eqn:Hs; [|done].
    rewrite (verify_accepted _ _ _ _ Hs Hv), Hc.
    destruct (update_known e verified_flag w u Hf) as (l1 & l2 & Hl & Hl1 & ->).
    cbn [fst snd set_users users]. split; [done|].
    exists (updated verified_flag (clock w) u), l1, l2.
    apply find_split in Hf as (l1' & l2' & _ & Hu & _).
    split_and!; try done.
    + apply find_at; [done|]. by rewrite updated_has_email.
    + apply updated_flag.
    + intros k H1 H2. by apply updated_other.
  - intros p Hv Hn. unfold validate in Hv.
    destruct (UsersService.secret w).1 as [s|e'] eqn:Hs; [|done].
    rewrite (verify_accepted _ _ _ _ Hs Hv).
    destruct (update_rejected _ verified_flag w Hn) as (x & -> & ->).
    done.
Qed.

(** C5 as first stated does not hold for the verification: in production
    without a secret the accessor throws the configuration error, and so
    does the issuing of a token for a stored user, but the verification of
    a token answers with the bad request [InvalidToken], the answer a
    string that is no token gets where the secret is configured.  The
    configuration error does not reach the caller. *)
Lemma verify_hides_missing_secret :
  secret_absent (env Sample.prod)
  ∧ NODE_ENV (env Sample.prod) = Some "production"
  ∧ (UsersService.secret Sample.prod).1 = Throw ConfigurationError
  ∧ (UsersService.generateEmailVerificationToken "ada@x.com" Sample.ada_id
       Sample.prod).1 = Throw ConfigurationError
  ∧ UsersService.verifyEmailVerificationToken Sample.ada_dev_token Sample.prod
    = (Throw InvalidToken, Sample.prod)
  ∧ InvalidToken = BadRequestException "Invalid token"
  ∧ InvalidToken ≠ ConfigurationError
  ∧ name InvalidToken ≠ name ConfigurationError
  ∧ UsersService.verifyEmailVerificationToken (Raw "no token") Sample.live
    = (Throw InvalidToken, Sample.live).
Proof. split_and!; done. Qed.

(** C5, as amended.  When the secret is absent, in production the
    accessor throws the configuration error and issuing a token for a
    stored user fails with that error; verifying fails too, for every
    token, and changes nothing.  Outside production the accessor returns
    the fixed fallback.  When the secret is configured, the accessor
    returns the configured value.  Whatever the accessor returns is the key
    of both operations: tokens are signed with it, a token is validated
    under it, so that a token signed with it for a stored user is accepted
    within the hour and marks that user, and a token signed with any other
    key is refused. *)
Theorem secret_resolution (w : World) :
  (secret_absent (env w) → NODE_ENV (env w) = Some "production" →
     UsersService.secret w = (Throw ConfigurationError, w)
     ∧ (∀ email id,
          (email_taken email w →
             (UsersService.generateEmailVerificationToken email id w).1
             = Throw ConfigurationError)
          ∧ (¬ email_taken email w →
             (UsersService.generateEmailVerificationToken email id w).1
             = Throw UserNotFound))
     ∧ (∀ token,
          UsersService.verifyEmailVerificationToken token w
          = (Throw InvalidToken, w)))
  ∧ (secret_absent (env w) → NODE_ENV (env w) ≠ Some "production" →
     UsersService.secret w = (Return "default-secret", w)
     ∧ ∀ email id, email_taken email w →
         (UsersService.generateEmailVerificationToken email id w).1
         = Return (jwt_sign {[ "email" := VStr email ]} "default-secret"
                     one_hour (clock w)))
  ∧ (∀ s, JWT_SECRET (env w) = Some s → s ≠ EmptyString →
     UsersService.secret w = (Return s, w)
     ∧ ∀ email id, email_taken email w →
         (UsersService.generateEmailVerificationToken email id w).1
         = Return (jwt_sign {[ "email" := VStr email ]} s one_hour
                     (clock w)))
  ∧ (∀ s, (UsersService.secret w).1 = Return s →
     (s = "default-secret" ∧ secret_absent (env w)
        ∧ NODE_ENV (env w) ≠ Some "production"
      ∨ JWT_SECRET (env w) = Some s ∧ s ≠ EmptyString)
     ∧ (∀ token, validate token w = jwt_verify token s (clock w))
     ∧ (∀ email issued l1 u l2,
          users w = l1 ++ u :: l2 →
          Forall (λ v, has "email" (VStr email) v = false) l1 →
          has "email" (VStr email) u = true →
          clock w < issued + 3600 →
          (UsersService.verifyEmailVerificationToken
             (jwt_sign {[ "email" := VStr email ]} s one_hour issued) w).1
          = Return "Email verified successfully"
          ∧ users (UsersService.verifyEmailVerificationToken
                     (jwt_sign {[ "email" := VStr email ]} s one_hour issued)
                     w).2
            = l1 ++ updated verified_flag (clock w) u :: l2)
     ∧ (∀ email issued,
          issued + 3600 <= clock w →
          UsersService.verifyEmailVerificationToken
            (jwt_sign {[ "email" := VStr email ]} s one_hour issued) w
          = (Throw TokenExpired, w))
     ∧ (∀ p k, k ≠ s →
          UsersService.verifyEmailVerificationToken (Jws p k) w
          = (Throw InvalidToken, w))).
Proof.
  split_and!.
  - intros Ha Hp. pose proof (secret_production w Ha Hp) as Hs.
    split_and!; [done | |].
    + intros email id. split; intros He.
      * rewrite generate_known by done. by rewrite Hs.
      * by rewrite generate_unknown.
    + intros token.
      rewrite (verify_invalid token w ConfigurationError); [done|].
      unfold validate. by rewrite Hs.
  - intros Ha Hn. pose proof (secret_fallback w Ha Hn) as Hs.
    split; [done|]. intros email id He.
    rewrite generate_known by done. by rewrite Hs.
  - intros s Hc Hne. pose proof (secret_configured w s Hc Hne) as Hs.
    split; [done|]. intros email id He.
    rewrite generate_known by done. by rewrite Hs.
  - intros s Hs. split_and!.
    + destruct (nonempty (JWT_SECRET (env w))) as [k|] eqn:Hk.
      * right. unfold nonempty in Hk.
        destruct (JWT_SECRET (env w)) as [[|a k']|] eqn:Hj; try discriminate.
        injection Hk as <-.
        rewrite (secret_configured w (String a k')) in Hs by done.
        by injection Hs as <-.
      * left.
        destruct (decide (NODE_ENV (env w) = Some "production")) as [Hp|Hp].
        -- by rewrite (secret_production w Hk Hp) in Hs.
        -- rewrite (secret_fallback w Hk Hp) in Hs. by injection Hs as <-.
    + intros token. unfold validate. by rewrite Hs.
    + intros email issued l1 u l2 Hl Hl1 Hu Hlt.
      erewrite verify_at; [| exact Hs
                           | apply jwt_sign_verifies; unfold one_hour; lia
                           | apply lookup_singleton_eq | exact Hl | done | done].
      done.
    + intros email issued Hle.
      rewrite (verify_rejected _ _ s (TokenExpiredError "jwt expired"));
        [done | done |].
      apply jwt_sign_expires. unfold one_hour. lia.
    + intros p k Hk.
      rewrite (verify_rejected _ _ s (JsonWebTokenError "invalid signature"));
        [done | done |]. cbn. by rewrite decide_False.
Qed.

(** ** Requesting the verification mail *)

Section Mail.
Context {ext : Externals}.

Lemma link_built token w href :
  URL_href "/verify-email" (base_url w) = Some href →
  UsersService.generateVerificationLink token w
  = (Return (href +:+ "?token=" +:+ urlencode token), w).
Proof.
  unfold UsersService.generateVerificationLink, base_url, bind, process_env.
  by intros ->.
Qed.

Lemma sendEmail_run email subject content w :
  let m := {| mail_from := or_else (SMTP_FROM (env w)) "stationphast@gmail.com";
              mail_to := email; mail_subject := subject;
              mail_html := content |} in
  UsersService.sendEmail email subject content w
  = if smtp_up w then (Return tt, deliver m (log (CallSendMail m) w))
    else (Throw DeliveryError, log (CallSendMail m) w).
Proof.
  unfold UsersService.sendEmail, try_catch, bind, process_env,
    mailerService_sendMail.
  by destruct (smtp_up w).
Qed.

Lemma send_verification email token w href :
  URL_href "/verify-email" (base_url w) = Some href →
  let m := verification_mail w email (href +:+ "?token=" +:+ urlencode token) in
  UsersService.sendEmailVerificationEmail email token w
  = if smtp_up w then (Return tt, deliver m (log (CallSendMail m) w))
    else (Throw DeliveryError, log (CallSendMail m) w).
Proof.
  intros Hh m. unfold UsersService.sendEmailVerificationEmail.
  erewrite bind_return by (by apply link_built).
  by rewrite sendEmail_run.
Qed.

(** C7, as amended.  For an email with no stored user the request fails
    with [UserNotFound] and nothing is handed to the mailer.  For an email
    with a stored user, when the signing secret resolves, a token is
    issued whose payload is the single claim [email] and which is valid
    for 3600 seconds from its issue; when moreover the [URL] constructor
    accepts the base address, the token is handed to the mailer in a
    message to that address whose text holds the link
    [<href>?token=<token>], and the request succeeds or fails as the
    delivery does. *)
Theorem requestEmailVerification_outcomes (email id : string) (w : World) :
  (¬ email_taken email w →
     (AuthService.requestEmailVerification email id w).1 = Throw UserNotFound
     ∧ calls (AuthService.requestEmailVerification email id w).2
       = calls w ++ [CallFindUnique email])
  ∧ (∀ s,
       email_taken email w →
       (UsersService.secret w).1 = Return s →
       let payload :=
         {| claims := {[ "email" := VStr email ]}; iat := clock w;
            exp := Some (clock w + 3600) |} in
       (UsersService.generateEmailVerificationToken email id w).1
       = Return (Jws payload s)
       ∧ (∀ t, t < clock w + 3600 →
               jwt_verify (Jws payload s) s t = inr payload)
       ∧ (∀ t, clock w + 3600 <= t →
               jwt_verify (Jws payload s) s t
               = inl (TokenExpiredError "jwt expired"))
       ∧ (∀ href,
            URL_href "/verify-email" (base_url w) = Some href →
            let link :=
              href +:+ "?token=" +:+ urlencode (token_text (Jws payload s)) in
            let m := verification_mail w email link in
            calls (AuthService.requestEmailVerification email id w).2
            = calls w ++ [CallFindUnique email; CallSendMail m]
            ∧ (smtp_up w = true →
                 (AuthService.requestEmailVerification email id w).1
                 = Return tt
                 ∧ outbox (AuthService.requestEmailVerification email id w).2
                   = outbox w ++ [m])
            ∧ (smtp_up w = false →
                 (AuthService.requestEmailVerification email id w).1
                 = Throw DeliveryError))).
Proof.
  unfold AuthService.requestEmailVerification. split.
  - intros He.
    erewrite bind_throw by (by apply generate_unknown). done.
  - intros s He Hs.
    pose proof (generate_known email id w He) as Hg. rewrite Hs in Hg.
    rewrite Hg. split_and!.
    + done.
    + intros t Ht. cbn. rewrite decide_True by done.
      by rewrite decide_False by lia.
    + intros t Ht. cbn. rewrite decide_True by done.
      by rewrite decide_True by lia.
    + intros href Hh.
      erewrite bind_return by exact Hg.
      rewrite (send_verification _ _ _ href) by done.
      cbn [smtp_up log].
      destruct (smtp_up w); cbn [fst snd calls outbox deliver log].
      * rewrite <- app_assoc. by split_and!.
      * rewrite <- app_assoc. by split_and!.
Qed.

End Mail.

(** C7 as first stated does not hold: in production without a secret, a
    request for a stored user fails with the configuration error, and
    nothing reaches the mailer. *)
Lemma request_without_secret :
  let w := Sample.world Sample.production_without_secret 100 in
  let r :=
    AuthService.requestEmailVerification (ext := Sample.externals)
      "ada@x.com" "65f0c0ffee0" w in
  email_taken "ada@x.com" w
  ∧ r.1 = Throw ConfigurationError
  ∧ calls r.2 = [CallFindUnique "ada@x.com"]
  ∧ outbox r.2 = [].
Proof.
  split_and!.
  - apply taken_existsb. reflexivity.
  - reflexivity.
  - reflexivity.
  - reflexivity.
Qed.

(** ** Verifying twice *)

(** C8 as first stated does not hold: a second verification, 100 seconds
    after the first, succeeds but leaves a store that differs from the one
    the first left, in the row's [updatedAt]. *)
Lemma reverify_changes_store :
  let token := jwt_sign {[ "email" := VStr "ada@x.com" ]} "s3cret" one_hour 100 in
  let once :=
    UsersService.verifyEmailVerificationToken token
      (Sample.world Sample.configured 200) in
  let twice :=
    UsersService.verifyEmailVerificationToken token (at_time 300 once.2) in
  once.1 = Return "Email verified successfully"
  ∧ twice.1 = Return "Email verified successfully"
  ∧ users twice.2 ≠ users once.2.
Proof.
  split_and!.
  - reflexivity.
  - reflexivity.
  - intros E.
    apply (f_equal (λ l : list JsObject, head l ≫= (.!! "updatedAt"))) in E.
    vm_compute in E. discriminate.
Qed.

(** C8, as amended.  When a verification has succeeded and the token is
    still valid at a later time, verifying again at that time succeeds and
    the user's [emailIsVerified] is still [true].  The store after the two
    runs is the store a single run at the later time leaves.  It is the
    store after the first run but for one field of one row: the rows
    before and after the user named by the token are the same, and that
    user's row is the row the first run left with [updatedAt] set to the
    time of the second run, where the first run had put its own time.  It
    is that very store when no time has passed. *)
Theorem verifyEmail_again (token : Token) (w : World) (later : Z)
    (p : JwtPayload) :
  let once := UsersService.verifyEmailVerificationToken token w in
  let twice :=
    UsersService.verifyEmailVerificationToken token (at_time later once.2) in
  once.1 = Return "Email verified successfully" →
  validate token (at_time later w) = inr p →
  twice.1 = Return "Email verified successfully"
  ∧ (∃ e u, claims p !! "email" = Some (VStr e)
            ∧ find (has "email" (VStr e)) (users twice.2) = Some u
            ∧ u !! "emailIsVerified" = Some (VBool true))
  ∧ users twice.2
    = users (UsersService.verifyEmailVerificationToken token
               (at_time later w)).2
  ∧ Forall2 same_but_stamp (users once.2) (users twice.2)
  ∧ (later = clock w → users twice.2 = users once.2)
  ∧ (∃ e l1 u1 u2 l2,
       claims p !! "email" = Some (VStr e)
       ∧ users once.2 = l1 ++ u1 :: l2
       ∧ users twice.2 = l1 ++ u2 :: l2
       ∧ Forall (λ v, has "email" (VStr e) v = false) l1
       ∧ u1 !! "email" = Some (VStr e)
       ∧ u1 !! "emailIsVerified" = Some (VBool true)
       ∧ u1 !! "updatedAt" = Some (VNum (clock w))
       ∧ u2 = <["updatedAt" := VNum later]> u1
       ∧ u2 !! "updatedAt" = Some (VNum later)
       ∧ ∀ k, k ≠ "updatedAt" → u2 !! k = u1 !! k).
Proof.
  intros once twice Hone Hv. subst once twice.
  unfold validate in Hv.
  destruct (UsersService.secret (at_time later w)).1 as [s|] eqn:Hs2; [|done].
  assert (∀ w', env w' = env w → (UsersService.secret w').1 = Return s)
    as Hsec.
  { intros w' Hw'. rewrite <- Hs2.
    unfold UsersService.secret, bind, process_env. rewrite Hw'. cbn [env at_time].
    destruct (nonempty _); [done|]. by destruct (bool_decide _). }
  pose proof (Hsec w eq_refl) as Hs.
  cbn [clock at_time] in Hv.
  apply jwt_verify_accepts in Hv as Hv'. destruct Hv' as [-> Hexp].
  destruct (jwt_verify (Jws p s) s (clock w)) as [e|p'] eqn:Hv1.
  { rewrite (verify_rejected _ _ _ _ Hs Hv1) in Hone. done. }
  apply jwt_verify_accepts in Hv1 as Hp. destruct Hp as [[= <-] _].
  rewrite (verify_accepted _ _ _ _ Hs Hv1) in Hone |- *.
  rewrite (verify_accepted _ (at_time later w) s p) by done.
  destruct (claims p !! "email") as [[| | |e]|] eqn:Hc; try done.
  destruct (find (has "email" (VStr e)) (users w)) as [u|] eqn:Hf.
  2:{ pose proof (update_unknown e verified_flag w Hf) as Hn.
      destruct (prisma_user_update _ _ w) as [[?|?] ?]; done. }
  apply find_split in Hf as (l1 & l2 & Hl & Hu & Hl1).
  rewrite (update_at e verified_flag w l1 u l2) by done.
  rewrite (update_at e verified_flag (at_time later w) l1 u l2) by done.
  cbn [fst snd set_users users clock at_time].
  set (u1 := updated verified_flag (clock w) u).
  assert (has "email" (VStr e) u1 = true) as Hu1
    by (unfold u1; by rewrite updated_has_email).
  rewrite (verify_accepted _ _ s p); [| by apply Hsec | done].
  rewrite Hc.
  erewrite (update_at e verified_flag _ l1 u1 l2) by done.
  cbn [fst snd set_users users clock at_time]. unfold u1.
  rewrite updated_updated.
  split_and!.
  - done.
  - exists e, (updated verified_flag later u). split_and!; [done | |].
    + apply find_at; [done|]. by rewrite updated_has_email.
    + apply updated_flag.
  - done.
  - apply Forall2_app; [by apply Forall_Forall2_diag, Forall_true|].
    constructor; [|by apply Forall_Forall2_diag, Forall_true].
    intros k Hk. unfold updated. by rewrite !lookup_insert_ne.
  - by intros ->.
  - exists e, l1, (updated verified_flag (clock w) u),
      (updated verified_flag later u), l2.
    split_and!; try done.
    + rewrite updated_other by done. by apply has_true.
    + apply updated_flag.
    + unfold updated. apply lookup_insert_eq.
    + unfold updated. by rewrite insert_insert_eq.
    + unfold updated. apply lookup_insert_eq.
    + intros k Hk. unfold updated. by rewrite !lookup_insert_ne.
Qed.

(** * The properties on sample requests *)

(** Registering ada's email again is refused.  Bob's email and username
    are new: he is stored after ada.  Eve's email is new and her username
    is ada's: the creation fails and ada is alone in the store. *)
Lemma register_duplicate_email_sample :
  ((AuthService.create (ext := Sample.externals) Sample.dto_ada Sample.dev).1
   = Throw DuplicateEmail
   ∧ users (AuthService.create (ext := Sample.externals) Sample.dto_ada
              Sample.dev).2 = [Sample.ada])
  ∧ ((AuthService.create (ext := Sample.externals) Sample.dto_bob Sample.dev).1
     = Return (delete "password"
                 (registered_row (ext := Sample.externals) Sample.dto_bob
                    Sample.dev))
     ∧ users (AuthService.create (ext := Sample.externals) Sample.dto_bob
                Sample.dev).2
       = [Sample.ada;
          registered_row (ext := Sample.externals) Sample.dto_bob Sample.dev])
  ∧ ((AuthService.create (ext := Sample.externals) Sample.dto_eve Sample.dev).1
     = Throw CreateFailed
     ∧ users (AuthService.create (ext := Sample.externals) Sample.dto_eve
                Sample.dev).2 = [Sample.ada]).
Proof.
  assert (email_taken "ada@x.com" Sample.dev) as Hada
    by (apply taken_existsb; reflexivity).
  assert (¬ email_taken "bob@x.com" Sample.dev) as Hbob
    by (apply not_taken_existsb; reflexivity).
  assert (¬ username_taken "bob" Sample.dev) as Hbob'
    by (apply not_taken_existsb; reflexivity).
  assert (¬ email_taken "eve@x.com" Sample.dev) as Heve
    by (apply not_taken_existsb; reflexivity).
  assert (username_taken "ada" Sample.dev) as Heve'
    by (apply taken_existsb; reflexivity).
  pose proof (proj1 (@register_duplicate_email Sample.externals
                       Sample.dto_ada Sample.dev) Hada) as (A1 & A2 & _).
  pose proof (proj1 (proj2 (proj2
                (proj2 (@register_duplicate_email Sample.externals
                          Sample.dto_bob Sample.dev) Hbob))) Hbob')
    as (B1 & B2 & _).
  pose proof (proj2 (proj2 (proj2
                (proj2 (@register_duplicate_email Sample.externals
                          Sample.dto_eve Sample.dev) Heve))) Heve')
    as (E1 & E2 & _).
  split_and!.
  - exact A1.
  - exact A2.
  - exact B1.
  - exact B2.
  - exact E1.
  - exact E2.
Defined.

(** Bob registers: the stored password is the digest. *)
Lemma register_stores_digest_sample :
  ∃ row result,
    (AuthService.create (ext := Sample.externals) Sample.dto_bob Sample.dev).1 = Return result
    ∧ result = delete "password" row
    ∧ result !! "password" = None
    ∧ result !! "email" = Some (VStr "bob@x.com")
    ∧ result !! "username" = Some (VStr "bob")
    ∧ users (AuthService.create (ext := Sample.externals) Sample.dto_bob Sample.dev).2
      = users Sample.dev ++ [row]
    ∧ row !! "email" = Some (VStr "bob@x.com")
    ∧ row !! "username" = Some (VStr "bob")
    ∧ row !! "password"
      = Some (VStr (argon2_hash (Externals := Sample.externals) "P@ss1"))
    ∧ row !! "password" ≠ Some (VStr "P@ss1").
Proof.
  apply (@register_stores_digest Sample.externals Sample.dto_bob Sample.dev).
  - apply not_taken_existsb. reflexivity.
  - apply not_taken_existsb. reflexivity.
  - discriminate.
Defined.


(** A string that is no token is refused; ada's token verifies her. *)
Lemma verifyEmail_outcomes_sample :
  (UsersService.verifyEmailVerificationToken (Raw "abc") Sample.live).1
  = Throw InvalidToken
  ∧ (UsersService.verifyEmailVerificationToken Sample.ada_token Sample.live).1
    = Return "Email verified successfully".
Proof.
  split.
  - apply (proj1 (verifyEmail_outcomes (Raw "abc") Sample.live)
             (JsonWebTokenError "jwt malformed")).
    + reflexivity.
    + discriminate.
  - apply (proj1 (proj2 (proj2
             (verifyEmail_outcomes Sample.ada_token Sample.live)))
             {| claims := {[ "email" := VStr "ada@x.com" ]}; iat := 100;
                exp := Some 3700 |} "ada@x.com" Sample.ada).
    + reflexivity.
    + reflexivity.
    + reflexivity.
Defined.

(** The three ways the secret resolves, and the fallback at work: the token
    issued for ada in development verifies her there. *)
Lemma secret_resolution_sample :
  UsersService.secret Sample.prod
  = (Throw ConfigurationError, Sample.prod)
  ∧ UsersService.secret Sample.dev = (Return "default-secret", Sample.dev)
  ∧ UsersService.secret Sample.live = (Return "s3cret", Sample.live)
  ∧ (UsersService.verifyEmailVerificationToken Sample.ada_dev_token
       Sample.dev).1 = Return "Email verified successfully"
  ∧ UsersService.verifyEmailVerificationToken Sample.ada_token Sample.dev
    = (Throw InvalidToken, Sample.dev).
Proof.
  split_and!.
  - apply (proj1 (secret_resolution Sample.prod));
      reflexivity.
  - apply (proj1 (proj2 (secret_resolution Sample.dev)));
      [reflexivity | discriminate].
  - apply (proj1 (proj2 (proj2 (secret_resolution Sample.live))) "s3cret");
      [reflexivity | discriminate].
  - apply (proj1 (proj2 (proj2
             (proj2 (proj2 (proj2 (secret_resolution Sample.dev)))
                "default-secret" eq_refl)))
             "ada@x.com" 100 [] Sample.ada []);
      [reflexivity | constructor | apply has_true; reflexivity | reflexivity].
  - apply (proj2 (proj2 (proj2 (proj2
             (proj2 (proj2 (proj2 (secret_resolution Sample.dev)))
                "default-secret" eq_refl)))));
      discriminate.
Defined.

(** A refused registration leaves ada alone in the store. *)
Lemma failed_register_keeps_store_sample :
  users (AuthService.create (ext := Sample.externals) Sample.dto_eve Sample.dev).2 = users Sample.dev.
Proof.
  apply (@failed_register_keeps_store Sample.externals Sample.dto_eve Sample.dev CreateFailed).
  reflexivity.
Defined.

(** A request for an unknown address, and one for ada. *)
Lemma requestEmailVerification_outcomes_sample :
  (AuthService.requestEmailVerification (ext := Sample.externals)
     "zed@x.com" "0" Sample.live).1 = Throw UserNotFound
  ∧ (AuthService.requestEmailVerification (ext := Sample.externals)
       "ada@x.com" "65f0c0ffee0" Sample.live).1 = Return tt.
Proof.
  split.
  - apply (proj1 (@requestEmailVerification_outcomes Sample.externals
                    "zed@x.com" "0" Sample.live)).
    apply not_taken_existsb. reflexivity.
  - assert (email_taken "ada@x.com" Sample.live) as Hk
      by (apply taken_existsb; reflexivity).
    apply (proj2 (proj2 (proj2
             (proj2 (@requestEmailVerification_outcomes Sample.externals
                       "ada@x.com" "65f0c0ffee0" Sample.live)
                "s3cret" Hk eq_refl)))
             "https://library.example/verify-email" eq_refl).
    reflexivity.
Defined.

(** Ada verifies at 200 and again at 300: her row is the one the first run
    left, stamped 300. *)
Lemma verifyEmail_again_sample :
  (UsersService.verifyEmailVerificationToken Sample.ada_token
     (at_time 300
        (UsersService.verifyEmailVerificationToken Sample.ada_token
           Sample.live).2)).1
  = Return "Email verified successfully"
  ∧ users
      (UsersService.verifyEmailVerificationToken Sample.ada_token
         (at_time 300
            (UsersService.verifyEmailVerificationToken Sample.ada_token
               Sample.live).2)).2
    = users
        (UsersService.verifyEmailVerificationToken Sample.ada_token
           (at_time 300 Sample.live)).2.
Proof.
  pose proof (verifyEmail_again Sample.ada_token Sample.live 300
                {| claims := {[ "email" := VStr "ada@x.com" ]}; iat := 100;
                   exp := Some 3700 |} eq_refl eq_refl) as (H1 & _ & H3 & _).
  split; [exact H1 | exact H3].
Defined.


(** * Further properties *)

(** ** The flow from registration to verification *)

(** X1. The secret accessor leaves the world as it is, and the key it
    returns is never the empty string: it is the configured value or the
    fallback. *)
Theorem secret_never_empty (w : World) :
  (UsersService.secret w).2 = w
  ∧ ∀ s, (UsersService.secret w).1 = Return s →
         s ≠ EmptyString
         ∧ (JWT_SECRET (env w) = Some s
            ∨ s = "default-secret" ∧ secret_absent (env w)
              ∧ NODE_ENV (env w) ≠ Some "production").
Proof.
  split; [apply secret_state|].
  intros s. unfold UsersService.secret, bind, process_env, secret_absent.
  destruct (JWT_SECRET (env w)) as [[|c r]|] eqn:E; cbn.
  - case_bool_decide; [|done]. intros [= <-]. split; [done|]. by right.
  - intros [= <-]. split; [done|]. by left.
  - case_bool_decide; [|done]. intros [= <-]. split; [done|]. by right.
Qed.

Section Flow.
Context {ext : Externals}.

(** The three ways a registration runs. *)
Lemma create_cases data w :
  (email_taken (email data) w
   ∧ UsersService.create data w
     = (Throw DuplicateEmail, log (CallFindUnique (email data)) w))
  ∨ (¬ email_taken (email data) w ∧ username_taken (username data) w
     ∧ UsersService.create data w
       = (Throw CreateFailed, logs (register_calls data) w))
  ∨ (¬ email_taken (email data) w ∧ ¬ username_taken (username data) w
     ∧ UsersService.create data w
       = (Return (delete "password" (registered_row data w)),
          set_users (users w ++ [registered_row data w])
            (N.succ (created w)) (logs (register_calls data) w))).
Proof.
  destruct (taken_dec "email" (VStr (email data)) w) as [He|He].
  - left. split; [done|]. by apply create_duplicate.
  - destruct (taken_dec "username" (VStr (username data)) w) as [Hu|Hu].
    + right. left. split_and!; try done. by apply create_conflict.
    + right. right. split_and!; try done. by apply create_fresh.
Qed.

Lemma create_returns data w r :
  (UsersService.create data w).1 = Return r →
  ¬ email_taken (email data) w ∧ ¬ username_taken (username data) w
  ∧ users (UsersService.create data w).2
    = users w ++ [registered_row data w].
Proof.
  destruct (create_cases data w) as [[? E]|[(? & ? & E)|(? & ? & E)]];
    rewrite E; cbn [fst snd]; done.
Qed.

Lemma registered_row_email data w :
  registered_row data w !! "email" = Some (VStr (email data)).
Proof. done. Qed.

Lemma taken_app_r k v w us u :
  users w = us ++ [u] → u !! k = Some v → taken k v w.
Proof.
  intros Hw Hu. exists u. split; [|done].
  rewrite Hw. apply elem_of_app. right. by apply list_elem_of_singleton.
Qed.

(** X2. Once a registration has succeeded, registering the same email
    again, at whatever time and with whatever username and password, fails
    with [DuplicateEmail] and leaves the collection as the first
    registration left it. *)
Theorem register_twice (first second : CreateUserDto) (w : World) (t : Z)
    (r : JsObject) :
  (AuthService.create first w).1 = Return r →
  email second = email first →
  let w1 := at_time t (AuthService.create first w).2 in
  (AuthService.create second w1).1 = Throw DuplicateEmail
  ∧ users (AuthService.create second w1).2 = users w1.
Proof.
  intros Hr He w1. unfold AuthService.create in *.
  apply create_returns in Hr as (_ & _ & Hus).
  assert (email_taken (email second) w1) as Ht.
  { rewrite He. eapply taken_app_r; [exact Hus | apply registered_row_email]. }
  by rewrite create_duplicate.
Qed.

End Flow.

(** ** Issued tokens *)

(** X3. A token that [generateEmailVerificationToken] has issued,
    presented in a world with the same environment where the email is
    still stored, verifies the user as long as less than 3600 seconds have
    passed since it was issued; from then on it is refused with
    [TokenExpired], and nothing is changed. *)
Theorem issued_token_verifies (email id : string) (w w' : World)
    (token : Token) :
  (UsersService.generateEmailVerificationToken email id w).1 = Return token →
  env w' = env w →
  email_taken email w' →
  (clock w' < clock w + 3600 →
     (UsersService.verifyEmailVerificationToken token w').1
     = Return "Email verified successfully"
     ∧ ∃ u, find (has "email" (VStr email))
              (users (UsersService.verifyEmailVerificationToken token w').2)
            = Some u
            ∧ u !! "emailIsVerified" = Some (VBool true))
  ∧ (clock w + 3600 <= clock w' →
     UsersService.verifyEmailVerificationToken token w'
     = (Throw TokenExpired, w')).
Proof.
  intros Hg He Ht.
  apply generate_returns in Hg as (_ & s & Hs & ->).
  rewrite <- (secret_env w w' He) in Hs.
  split.
  - intros Hlt.
    apply taken_find in Ht as [u Hf].
    apply find_split in Hf as (l1 & l2 & Hl & Hu & Hl1).
    erewrite verify_at; [| exact Hs | by apply jwt_sign_verifies
                         | done | exact Hl | done | done].
    cbn [fst snd set_users users]. split; [done|].
    exists (updated verified_flag (clock w') u). split.
    + apply find_at; [done|]. by rewrite updated_has_email.
    + apply updated_flag.
  - intros Hle.
    by rewrite (verify_rejected _ _ s (TokenExpiredError "jwt expired"))
      by (done || by apply jwt_sign_expires).
Qed.

(** X4. A token issued under one secret is refused with [InvalidToken],
    at any time, where the secret resolves to another one; nothing is
    changed. *)
Theorem token_of_another_secret (email id : string) (w w' : World)
    (token : Token) (s s' : string) :
  (UsersService.generateEmailVerificationToken email id w).1 = Return token →
  (UsersService.secret w).1 = Return s →
  (UsersService.secret w').1 = Return s' →
  s ≠ s' →
  UsersService.verifyEmailVerificationToken token w'
  = (Throw InvalidToken, w').
Proof.
  intros Hg Hs Hs' Hne.
  apply generate_returns in Hg as (_ & s0 & Hs0 & ->).
  rewrite Hs in Hs0. injection Hs0 as <-.
  by rewrite (verify_rejected _ _ s' (JsonWebTokenError "invalid signature"))
    by (done || by apply jwt_sign_other_key).
Qed.

Section EndToEnd.
Context {ext : Externals}.

(** X5. Registration, then a token issued for the registered email, then
    its verification within the hour: the verification succeeds, and the
    collection is the one before the registration followed by the new
    user's row, which is verified and still holds the digest of the
    password and the username given. *)
Theorem register_issue_verify (data : CreateUserDto) (id : string)
    (w : World) (t1 t2 : Z) (r : JsObject) (token : Token) :
  let w1 := at_time t1 (AuthService.create data w).2 in
  let w2 :=
    at_time t2
      (UsersService.generateEmailVerificationToken (email data) id w1).2 in
  (AuthService.create data w).1 = Return r →
  (UsersService.generateEmailVerificationToken (email data) id w1).1
  = Return token →
  t2 < t1 + 3600 →
  (UsersService.verifyEmailVerificationToken token w2).1
  = Return "Email verified successfully"
  ∧ ∃ u,
      users (UsersService.verifyEmailVerificationToken token w2).2
      = users w ++ [u]
      ∧ u !! "email" = Some (VStr (email data))
      ∧ u !! "emailIsVerified" = Some (VBool true)
      ∧ u !! "password" = Some (VStr (argon2_hash (password data)))
      ∧ u !! "username" = Some (VStr (username data)).
Proof.
  intros w1 w2 Hr Hg Hlt. unfold AuthService.create in *.
  apply create_returns in Hr as (He & _ & Hus).
  apply generate_returns in Hg as (_ & s & Hs & ->).
  assert (w2 = at_time t2 (log (CallFindUnique (email data)) w1)) as Ew2
    by (unfold w2; by rewrite generate_state).
  assert (users w2 = users w ++ registered_row data w :: []) as Hw2
    by (rewrite Ew2; unfold w1; cbn [users at_time log]; by rewrite Hus).
  assert ((UsersService.secret w2).1 = Return s) as Hs2
    by (rewrite <- Hs; apply secret_env; by rewrite Ew2).
  assert (clock w2 < clock w1 + one_hour) as Hc
    by (rewrite Ew2; unfold w1; cbn [clock at_time log];
        unfold one_hour; lia).
  rewrite (verify_at _ w2 s _ (email data) (users w)
             (registered_row data w) [] Hs2
             (jwt_sign_verifies (email data) _ _ _ _ Hc)
             (lookup_singleton_eq _ _) Hw2 (not_taken_Forall _ _ _ He)
             (proj2 (has_true _ _ _) (registered_row_email data w))).
  cbn [fst snd set_users users]. split; [done|].
  exists (updated verified_flag (clock w2) (registered_row data w)).
  split_and!; [done | | apply updated_flag | |];
    by rewrite updated_other.
Qed.

End EndToEnd.

(** ** What verification leaves alone *)

Lemma same_but_refl ks (l : list JsObject) : Forall2 (same_but ks) l l.
Proof. apply Forall_Forall2_diag, Forall_true. by intros u k _. Qed.

Lemma update_first_Forall2 p g l row l' :
  update_first p g l = Some (row, l') →
  Forall2 (λ a b, b = a ∨ b = g a) l l'.
Proof.
  revert row l'. induction l as [|u r IH]; intros row l'; simpl; [done|].
  destruct (p u).
  - intros [= <- <-]. constructor; [by right|].
    apply Forall_Forall2_diag, Forall_true. by left.
  - destruct (update_first p g r) as [[x r']|]; [|done].
    intros [= <- <-]. constructor; [by left | by eapply IH].
Qed.

Lemma not_in_two (k a b : string) : k ≠ a → k ≠ b → k ∉ [a; b].
Proof.
  intros Ha Hb [->|H]%elem_of_cons; [done|].
  apply list_elem_of_singleton in H. done.
Qed.

Lemma update_frame where_email w :
  let r := prisma_user_update where_email verified_flag w in
  Forall2 (same_but ["emailIsVerified"; "updatedAt"]) (users w) (users r.2)
  ∧ created r.2 = created w ∧ outbox r.2 = outbox w
  ∧ env r.2 = env w ∧ clock r.2 = clock w.
Proof.
  unfold prisma_user_update.
  destruct where_email as [[| | |e]|];
    try (cbn; split_and!; [apply same_but_refl | done..]).
  destruct (update_first _ _ _) as [[row us]|] eqn:E;
    cbn; (split_and!; [| done..]); [|apply same_but_refl].
  apply update_first_Forall2 in E.
  eapply Forall2_impl; [exact E|].
  intros a b [->| ->]; intros k Hk; [done|].
  symmetry. apply updated_other; intros ->; apply Hk.
  - apply elem_of_cons. right. by apply list_elem_of_singleton.
  - by apply elem_of_cons; left.
Qed.

Lemma verify_rows token w :
  Forall2 (same_but ["emailIsVerified"; "updatedAt"]) (users w)
    (users (UsersService.verifyEmailVerificationToken token w).2).
Proof.
  destruct (validate token w) as [e|p] eqn:Hv.
  - rewrite (verify_invalid _ _ _ Hv). apply same_but_refl.
  - unfold validate in Hv.
    destruct (UsersService.secret w).1 as [s|e] eqn:Hs; [|done].
    rewrite (verify_accepted _ _ _ _ Hs Hv).
    pose proof (update_frame (claims p !! "email") w) as [Hf _].
    by destruct (prisma_user_update _ _ w) as [[row|e] w'].
Qed.

(** X6. Whatever the token and whatever the outcome,
    [verifyEmailVerificationToken] keeps the rows of the collection in
    place and changes no field of any row other than [emailIsVerified] and
    [updatedAt]; it creates no document and sends no mail. *)
Theorem verify_touches_two_fields (token : Token) (w : World) :
  let r := UsersService.verifyEmailVerificationToken token w in
  Forall2 (same_but ["emailIsVerified"; "updatedAt"]) (users w) (users r.2)
  ∧ created r.2 = created w ∧ outbox r.2 = outbox w
  ∧ env r.2 = env w ∧ clock r.2 = clock w.
Proof.
  cbv zeta. destruct (validate token w) as [e|p] eqn:Hv.
  - rewrite (verify_invalid _ _ _ Hv). cbn [snd].
    split_and!; [apply same_but_refl | done..].
  - unfold validate in Hv.
    destruct (UsersService.secret w).1 as [s|e] eqn:Hs; [|done].
    rewrite (verify_accepted _ _ _ _ Hs Hv).
    pose proof (update_frame (claims p !! "email") w) as Hf.
    cbv zeta in Hf.
    by destruct (prisma_user_update _ _ w) as [[row|e] w'].
Qed.

Section MailOutcomes.
Context {ext : Externals}.

(** X7. [sendEmailVerificationEmail] fails with a [TypeError] before the
    mailer is reached when the [URL] constructor refuses the base address:
    the world is left as it was.  Otherwise exactly one message is handed
    to the mailer, for the address given; it is added to the outbox when
    the transport is up, and the call fails with [DeliveryError] and an
    unchanged outbox when it is not.  The collection is never touched. *)
Theorem verification_mail_outcomes (email token : string) (w : World) :
  let r := UsersService.sendEmailVerificationEmail email token w in
  users r.2 = users w
  ∧ (URL_href "/verify-email" (base_url w) = None →
       r = (Throw (TypeError "Invalid URL"), w))
  ∧ (∀ href, URL_href "/verify-email" (base_url w) = Some href →
       let m :=
         verification_mail w email
           (href +:+ "?token=" +:+ urlencode token) in
       mail_to m = email
       ∧ calls r.2 = calls w ++ [CallSendMail m]
       ∧ (smtp_up w = true →
            r.1 = Return tt ∧ outbox r.2 = outbox w ++ [m])
       ∧ (smtp_up w = false →
            r.1 = Throw DeliveryError ∧ outbox r.2 = outbox w)).
Proof.
  cbv zeta.
  destruct (URL_href "/verify-email" (base_url w)) as [href|] eqn:Hh.
  - rewrite (send_verification _ _ _ href Hh).
    destruct (smtp_up w); cbn [fst snd users calls outbox deliver log];
      (split_and!; [done | done |]);
      intros ? [= <-]; by split_and!.
  - assert (UsersService.sendEmailVerificationEmail email token w
            = (Throw (TypeError "Invalid URL"), w)) as ->.
    { unfold UsersService.sendEmailVerificationEmail.
      apply bind_throw.
      unfold UsersService.generateVerificationLink, bind, process_env.
      fold (base_url w). by rewrite Hh. }
    by split_and!.
Qed.

End MailOutcomes.

(** ** Reads and writes by id *)

Lemma split_first_Some p l l1 u l2 :
  split_first p l = Some (l1, u, l2) →
  l = l1 ++ u :: l2 ∧ p u = true ∧ Forall (λ v, p v = false) l1.
Proof.
  revert l1. induction l as [|v r IH]; intros l1; simpl; [done|].
  destruct (p v) eqn:Hv.
  - intros [= <- <- <-]. by split_and!.
  - destruct (split_first p r) as [[[m1 x] m2]|]; [|done].
    intros [= <- <- <-]. destruct (IH m1 eq_refl) as (-> & Hx & Hm).
    split_and!; try done. by constructor.
Qed.

Lemma split_first_at p l1 u l2 :
  Forall (λ v, p v = false) l1 → p u = true →
  split_first p (l1 ++ u :: l2) = Some (l1, u, l2).
Proof.
  intros Hl Hu. induction Hl as [|v l1 Hv Hl IH]; simpl.
  - by rewrite Hu.
  - by rewrite Hv, IH.
Qed.

Lemma split_first_find p l :
  find p l = (λ x, x.1.2) <$> split_first p l.
Proof.
  induction l as [|v r IH]; simpl; [done|].
  destruct (p v); [done|]. rewrite IH.
  by destruct (split_first p r) as [[[m1 x] m2]|].
Qed.

Lemma split_first_None p l :
  find p l = None → split_first p l = None.
Proof.
  intros H. rewrite split_first_find in H.
  destruct (split_first p l); [discriminate | done].
Qed.

Lemma find_None_Forall (p : JsObject → bool) l :
  find p l = None ↔ Forall (λ v, p v = false) l.
Proof.
  induction l as [|v r IH]; simpl.
  - split; [constructor | done].
  - destruct (p v) eqn:Hv.
    + split; [done|]. intros H. apply Forall_cons in H as [H _]. congruence.
    + rewrite IH. split; [by constructor|].
      intros H. by apply Forall_cons in H as [_ H].
Qed.



Section ById.
Context {ext : Externals} {ids : ObjectIds}.

Lemma findOne_malformed id w :
  parse_ObjectId id = None →
  UsersService.findOne id w
  = (Throw (InternalServerErrorException "Error finding user"), w).
Proof.
  intros Hp.
  unfold UsersService.findOne, try_catch, bind, prisma_user_findUnique_id.
  by rewrite Hp.
Qed.

Lemma findOne_unknown id w n :
  parse_ObjectId id = Some n →
  find (has "id" (VStr (ObjectId n))) (users w) = None →
  UsersService.findOne id w = (Throw UserNotFound, w).
Proof.
  intros Hp Hf.
  unfold UsersService.findOne, try_catch, bind, prisma_user_findUnique_id.
  by rewrite Hp, Hf.
Qed.

Lemma findOne_known id w n u :
  parse_ObjectId id = Some n →
  find (has "id" (VStr (ObjectId n))) (users w) = Some u →
  UsersService.findOne id w = (Return u, w).
Proof.
  intros Hp Hf.
  unfold UsersService.findOne, try_catch, bind, prisma_user_findUnique_id.
  by rewrite Hp, Hf.
Qed.

(** X8. [findOne] never changes anything.  It fails with the internal
    error ["Error finding user"] on a string that is no id, with the bad
    request ["User not found"] on an id no row has, and otherwise returns
    the row as it is stored, the password digest included. *)
Theorem findOne_outcomes (id : string) (w : World) :
  (UsersService.findOne id w).2 = w
  ∧ (parse_ObjectId id = None →
       (UsersService.findOne id w).1
       = Throw (InternalServerErrorException "Error finding user"))
  ∧ (∀ n, parse_ObjectId id = Some n →
       find (has "id" (VStr (ObjectId n))) (users w) = None →
       (UsersService.findOne id w).1 = Throw UserNotFound)
  ∧ (∀ n u, parse_ObjectId id = Some n →
       find (has "id" (VStr (ObjectId n))) (users w) = Some u →
       (UsersService.findOne id w).1 = Return u).
Proof.
  destruct (parse_ObjectId id) as [n|] eqn:Hp.
  - destruct (find (has "id" (VStr (ObjectId n))) (users w)) as [u|] eqn:Hf.
    + rewrite (findOne_known _ _ _ _ Hp Hf).
      split_and!; try done; intros; simplify_eq; done.
    + rewrite (findOne_unknown _ _ _ Hp Hf).
      split_and!; try done; intros; simplify_eq; done.
  - rewrite (findOne_malformed _ _ Hp). by split_and!.
Qed.

End ById.

Section Writes.
Context {ext : Externals} {ids : ObjectIds}.

Lemma by_id_split id w u :
  by_id id w = Some u →
  ∃ n l1 l2,
    parse_ObjectId id = Some n
    ∧ users w = l1 ++ u :: l2
    ∧ has "id" (VStr (ObjectId n)) u = true
    ∧ Forall (λ v, has "id" (VStr (ObjectId n)) v = false) l1.
Proof.
  unfold by_id. destruct (parse_ObjectId id) as [n|]; [|done].
  intros Hf. apply find_split in Hf as (l1 & l2 & ? & ? & ?).
  by exists n, l1, l2.
Qed.

Lemma findOne_by_id id w u :
  by_id id w = Some u → UsersService.findOne id w = (Return u, w).
Proof.
  unfold by_id. destruct (parse_ObjectId id) as [n|] eqn:Hp; [|done].
  by apply findOne_known.
Qed.

Lemma findOne_not_by_id id w u :
  (UsersService.findOne id w).1 = Return u → by_id id w = Some u.
Proof.
  unfold by_id. destruct (parse_ObjectId id) as [n|] eqn:Hp.
  - destruct (find (has "id" (VStr (ObjectId n))) (users w)) as [v|] eqn:Hf.
    + rewrite (findOne_known _ _ _ _ Hp Hf). by intros [= <-].
    + by rewrite (findOne_unknown _ _ _ Hp Hf).
  - by rewrite (findOne_malformed _ _ Hp).
Qed.

(** The ways an update by id runs. *)
Lemma update_cases id data w :
  (UsersService.update id data w = (Throw UpdateFailed, w)
   ∧ (valid_data data = false
      ∨ by_id id w = None
      ∨ ∃ n l1 u l2,
          parse_ObjectId id = Some n
          ∧ split_first (has "id" (VStr (ObjectId n))) (users w)
            = Some (l1, u, l2)
          ∧ conflicts data (l1 ++ l2) = true))
  ∨ (∃ n l1 u l2,
       valid_data data = true
       ∧ parse_ObjectId id = Some n
       ∧ split_first (has "id" (VStr (ObjectId n))) (users w)
         = Some (l1, u, l2)
       ∧ conflicts data (l1 ++ l2) = false
       ∧ UsersService.update id data w
         = (Return (written data (clock w) u),
            set_users (l1 ++ written data (clock w) u :: l2) (created w) w)).
Proof.
  unfold UsersService.update, try_catch, prisma_user_update_id, by_id.
  destruct (valid_data data) eqn:Hv; cbn [negb]; [|left; by split; [|left]].
  destruct (parse_ObjectId id) as [n|] eqn:Hp;
    [|left; by split; [|right; left]].
  destruct (split_first _ (users w)) as [[[l1 u] l2]|] eqn:Hs.
  - destruct (conflicts data (l1 ++ l2)) eqn:Hc.
    + left. split; [done|]. right. right. by exists n, l1, u, l2.
    + right. by exists n, l1, u, l2.
  - left. split; [done|]. right. left.
    rewrite split_first_find, Hs. done.
Qed.

(** X9. An update that fails changes nothing and always fails with the
    same internal error, ["Error updating user"], whether the data does
    not fit the model, the id is not one or names no row, or the data
    would repeat the email or username of another row. *)
Theorem update_failures (id : string) (data : JsObject) (w : World)
    (e : Exn) :
  (UsersService.update id data w).1 = Throw e →
  e = UpdateFailed
  ∧ (UsersService.update id data w).2 = w
  ∧ (valid_data data = false
     ∨ by_id id w = None
     ∨ ∃ n l1 u l2,
         parse_ObjectId id = Some n
         ∧ users w = l1 ++ u :: l2
         ∧ by_id id w = Some u
         ∧ conflicts data (l1 ++ l2) = true).
Proof.
  destruct (update_cases id data w)
    as [[E H]|(n & l1 & u & l2 & _ & _ & _ & _ & E)]; rewrite E; [|done].
  intros [= <-]. split_and!; try done.
  destruct H as [H|[H|(n & l1 & u & l2 & Hp & Hs & Hc)]]; [by left | by right; left |].
  right. right. exists n, l1, u, l2.
  pose proof (split_first_Some _ _ _ _ _ Hs) as (Hl & _ & _).
  split_and!; try done.
  unfold by_id. by rewrite Hp, split_first_find, Hs.
Qed.

Lemma written_data data now (u : JsObject) k v :
  data !! k = Some v → written data now u !! k = Some v.
Proof. intros Hk. by apply lookup_union_Some_l. Qed.

Lemma written_other data now (u : JsObject) k :
  data !! k = None → k ≠ "updatedAt" → written data now u !! k = u !! k.
Proof.
  intros Hk Hn. unfold written. rewrite lookup_union_r by done.
  by rewrite lookup_insert_ne.
Qed.




End Writes.

(** ** Uniqueness *)

Lemma elem_of_values k (l : list JsObject) x :
  x ∈ omap (λ u : JsObject, u !! k) l ↔ ∃ u, u ∈ l ∧ u !! k = Some x.
Proof. apply list_elem_of_omap. Qed.

Lemma no_value_Forall k x (l : list JsObject) :
  x ∉ omap (λ u : JsObject, u !! k) l ↔ Forall (λ u, has k x u = false) l.
Proof.
  rewrite elem_of_values, Forall_forall. split.
  - intros Hn u Hu. destruct (has k x u) eqn:E; [|done].
    destruct Hn. exists u. split; [done | by apply has_true].
  - intros Hall (u & Hu & Hk). apply has_true in Hk.
    specialize (Hall u Hu). congruence.
Qed.

Lemma values_split k (l1 l2 : list JsObject) u :
  omap (λ u : JsObject, u !! k) (l1 ++ u :: l2)
  = omap (λ u : JsObject, u !! k) l1
    ++ option_list (u !! k) ++ omap (λ u : JsObject, u !! k) l2.
Proof. rewrite omap_app. cbn. by destruct (u !! k). Qed.

Lemma unique_on_remove k l1 u l2 :
  unique_on k (l1 ++ u :: l2) → unique_on k (l1 ++ l2).
Proof.
  unfold unique_on. rewrite values_split, omap_app.
  rewrite !NoDup_app. intros (H1 & H2 & H3 & H4 & H5).
  split_and!; try done. intros x Hx Hx2. apply (H2 x Hx).
  apply elem_of_app. by right.
Qed.

Lemma unique_on_others k l1 u l2 x :
  unique_on k (l1 ++ u :: l2) → u !! k = Some x →
  Forall (λ v, has k x v = false) (l1 ++ l2).
Proof.
  unfold unique_on. rewrite values_split. intros Hnd Hu. rewrite Hu in Hnd.
  cbn in Hnd. apply NoDup_app in Hnd as (H1 & H2 & H3).
  apply NoDup_cons in H3 as [H3 H4].
  apply Forall_app. split; apply no_value_Forall; [|done].
  intros Hx. apply (H2 x Hx). by left.
Qed.

Lemma unique_on_replace k l1 u row l2 :
  unique_on k (l1 ++ u :: l2) →
  (row !! k = u !! k
   ∨ ∃ x, row !! k = Some x ∧ Forall (λ v, has k x v = false) (l1 ++ l2)) →
  unique_on k (l1 ++ row :: l2).
Proof.
  unfold unique_on. rewrite !values_split. intros Hnd [->|(x & -> & Hx)].
  - done.
  - apply Forall_app in Hx as [Hx1 Hx2].
    apply no_value_Forall in Hx1, Hx2.
    apply NoDup_app in Hnd as (H1 & H2 & H3).
    apply NoDup_app in H3 as (_ & _ & H3).
    apply NoDup_app. split_and!; [done | |].
    + intros y Hy [Hy'|Hy']%elem_of_app.
      * cbn in Hy'. apply list_elem_of_singleton in Hy' as ->. done.
      * apply (H2 y Hy). apply elem_of_app. by right.
    + cbn. by apply NoDup_cons.
Qed.

Lemma unique_on_add k l u x :
  unique_on k l → u !! k = Some x →
  Forall (λ v, has k x v = false) l →
  unique_on k (l ++ [u]).
Proof.
  unfold unique_on. intros Hnd Hu Hx. rewrite omap_app. cbn. rewrite Hu.
  apply no_value_Forall in Hx.
  apply NoDup_app. split_and!; [done | | apply NoDup_singleton].
  intros y Hy ->%list_elem_of_singleton. done.
Qed.

Lemma unique_on_same k (l l' : list JsObject) :
  Forall2 (λ a b : JsObject, a !! k = b !! k) l l' →
  unique_on k l → unique_on k l'.
Proof.
  unfold unique_on. intros HF.
  assert (omap (λ u : JsObject, u !! k) l
          = omap (λ u : JsObject, u !! k) l') as ->; [|done].
  induction HF as [|a b l l' Hab HF IH]; [done|].
  cbn. by rewrite Hab, IH.
Qed.

Lemma conflicts_false data others k x :
  k = "email" ∨ k = "username" →
  conflicts data others = false → data !! k = Some x →
  Forall (λ v, has k x v = false) others.
Proof.
  unfold conflicts. intros Hk Hc Hd.
  apply orb_false_iff in Hc as [He Hu].
  apply find_None_Forall.
  destruct Hk as [-> | ->]; rewrite Hd in *.
  - destruct (find _ others) as [v|] eqn:Hf; [|done].
    apply find_some in Hf as [Hin Hv].
    assert (existsb (has "email" x) others = true); [|congruence].
    apply existsb_exists. by exists v.
  - destruct (find _ others) as [v|] eqn:Hf; [|done].
    apply find_some in Hf as [Hin Hv].
    assert (existsb (has "username" x) others = true); [|congruence].
    apply existsb_exists. by exists v.
Qed.

Section Invariant.
Context {ext : Externals} {ids : ObjectIds}.

Lemma written_unique k data now l1 u l2 :
  k = "email" ∨ k = "username" →
  conflicts data (l1 ++ l2) = false →
  unique_on k (l1 ++ u :: l2) →
  unique_on k (l1 ++ written data now u :: l2).
Proof.
  intros Hk Hc Hu. apply (unique_on_replace k l1 u); [done|].
  destruct (data !! k) as [x|] eqn:Hd.
  - right. exists x. split; [by apply written_data|].
    by eapply conflicts_false.
  - left. apply written_other; [done|]. by destruct Hk as [-> | ->].
Qed.

(** X11. No operation of the service breaks what [@unique] asks: when
    emails and usernames are pairwise distinct in the collection, they
    still are after a registration, a verification, an update by id and a
    deletion, whatever their arguments and their outcome. *)
Theorem unique_store_kept (w : World) :
  unique_store w →
  (∀ data, unique_store (UsersService.create data w).2)
  ∧ (∀ token,
       unique_store (UsersService.verifyEmailVerificationToken token w).2)
  ∧ (∀ id data, unique_store (UsersService.update id data w).2)
  ∧ (∀ id, unique_store (UsersService.delete id w).2).
Proof.
  intros [He Hu]. split_and!.
  - intros data.
    destruct (create_cases data w) as [[? E]|[(? & ? & E)|(Hne & Hnu & E)]];
      rewrite E; unfold unique_store; cbn [snd users log set_users];
      rewrite ?users_logs; [done | done |].
    split.
    + eapply unique_on_add; [done | apply registered_row_email |].
      by apply not_taken_Forall.
    + eapply (unique_on_add _ _ _ (VStr (username data))); [done | done |].
      by apply not_taken_Forall.
  - intros token.
    pose proof (verify_rows token w) as HF.
    split.
    + eapply unique_on_same; [|exact He].
      eapply Forall2_impl; [exact HF|]. intros a b Hab. apply Hab.
      by apply not_in_two.
    + eapply unique_on_same; [|exact Hu].
      eapply Forall2_impl; [exact HF|]. intros a b Hab. apply Hab.
      by apply not_in_two.
  - intros id data.
    destruct (update_cases id data w)
      as [[E _]|(n & l1 & u & l2 & _ & _ & Hs & Hc & E)]; rewrite E;
      [done|].
    apply split_first_Some in Hs as (Hl & _ & _).
    unfold unique_store in *. cbn [snd users set_users]. rewrite Hl in *.
    split; apply written_unique; auto.
  - intros id.
    unfold UsersService.delete, try_catch, prisma_user_delete.
    destruct (parse_ObjectId id) as [n|]; [|done].
    destruct (split_first _ (users w)) as [[[l1 u] l2]|] eqn:Hs; [|done].
    apply split_first_Some in Hs as (Hl & _ & _).
    unfold unique_store in *. cbn [snd users set_users]. rewrite Hl in *.
    split; by eapply unique_on_remove.
Qed.

End Invariant.

(** ** Deleting *)

Lemma Forall_not_taken k v w :
  Forall (λ u, has k v u = false) (users w) → ¬ taken k v w.
Proof.
  intros Hall. apply not_taken_find. by apply find_None_Forall.
Qed.

Section Deleting.
Context {ext : Externals} {ids : ObjectIds}.

(** The ways a deletion runs. *)
Lemma delete_cases id w :
  (UsersService.delete id w = (Throw DeleteFailed, w) ∧ by_id id w = None)
  ∨ (∃ n l1 u l2,
       parse_ObjectId id = Some n
       ∧ users w = l1 ++ u :: l2
       ∧ has "id" (VStr (ObjectId n)) u = true
       ∧ Forall (λ v, has "id" (VStr (ObjectId n)) v = false) l1
       ∧ UsersService.delete id w
         = (Return u, set_users (l1 ++ l2) (created w) w)).
Proof.
  unfold UsersService.delete, try_catch, prisma_user_delete, by_id.
  destruct (parse_ObjectId id) as [n|] eqn:Hp; [|by left].
  destruct (split_first _ (users w)) as [[[l1 u] l2]|] eqn:Hs.
  - right. apply split_first_Some in Hs as (Hl & Hu & Hl1).
    by exists n, l1, u, l2.
  - left. split; [done|]. by rewrite split_first_find, Hs.
Qed.

(** X12. A deletion fails exactly when [findOne] would not return a row
    for the id, and then with the internal error ["Error deleting user"]
    and without any change.  A deletion that succeeds returns the row
    [findOne] returned and removes that row and no other. *)
Theorem delete_outcomes (id : string) (w : World) :
  (∀ e, (UsersService.delete id w).1 = Throw e →
     e = DeleteFailed ∧ (UsersService.delete id w).2 = w
     ∧ ∀ u, (UsersService.findOne id w).1 ≠ Return u)
  ∧ (∀ u, (UsersService.delete id w).1 = Return u →
     (UsersService.findOne id w).1 = Return u
     ∧ ∃ l1 l2,
         users w = l1 ++ u :: l2
         ∧ users (UsersService.delete id w).2 = l1 ++ l2).
Proof.
  destruct (delete_cases id w)
    as [[E Hn]|(n & l1 & u & l2 & Hp & Hl & Hu & Hl1 & E)]; rewrite E;
    cbn [fst snd]; split; try done.
  - intros e [= <-]. split_and!; try done.
    intros u Hf. apply findOne_not_by_id in Hf. congruence.
  - intros v [= <-]. split.
    + erewrite findOne_known; [done | exact Hp |].
      rewrite Hl. by apply find_at.
    + by exists l1, l2.
Qed.

(** X13. With ids pairwise distinct in the collection, once a deletion
    has succeeded the id names no row any more: at any later time
    [findOne] answers ["User not found"], and a second deletion and any
    update fail with their internal errors. *)
Theorem delete_then_gone (id : string) (w : World) (u : JsObject) (t : Z) :
  unique_on "id" (users w) →
  (UsersService.delete id w).1 = Return u →
  let w' := at_time t (UsersService.delete id w).2 in
  (UsersService.findOne id w').1 = Throw UserNotFound
  ∧ (UsersService.delete id w').1 = Throw DeleteFailed
  ∧ ∀ data, (UsersService.update id data w').1 = Throw UpdateFailed.
Proof.
  intros Hun Hr w'. subst w'.
  destruct (delete_cases id w)
    as [[E Hn]|(n & l1 & v & l2 & Hp & Hl & Hu & Hl1 & E)]; rewrite E in *;
    [done|].
  cbn [fst snd] in *. injection Hr as ->.
  rewrite Hl in Hun. apply has_true in Hu.
  pose proof (unique_on_others _ _ _ _ _ Hun Hu) as Hall.
  set (w' := at_time t (set_users (l1 ++ l2) (created w) w)).
  assert (by_id id w' = None) as Hb.
  { unfold by_id. rewrite Hp. by apply find_None_Forall. }
  split_and!.
  - erewrite findOne_unknown; [done | exact Hp |]. by apply find_None_Forall.
  - destruct (delete_cases id w')
      as [[E' _]|(n' & m1 & x & m2 & Hp' & Hl' & Hx & Hm1 & _)];
      [by rewrite E'|].
    exfalso. unfold by_id in Hb. rewrite Hp' in Hb.
    rewrite Hl' in Hb. by rewrite find_at in Hb.
  - intros data.
    destruct (update_cases id data w')
      as [[E' _]|(n' & m1 & x & m2 & _ & Hp' & Hs' & _)]; [by rewrite E'|].
    exfalso. unfold by_id in Hb. rewrite Hp' in Hb.
    by rewrite split_first_find, Hs' in Hb.
Qed.

(** X14. With emails and usernames pairwise distinct in the collection,
    a deletion frees the email and the username of the row it removes: a
    registration with them, at any later time and with any password,
    succeeds. *)
Theorem delete_frees_email (id : string) (w : World) (u : JsObject)
    (data : CreateUserDto) (t : Z) :
  unique_store w →
  (UsersService.delete id w).1 = Return u →
  u !! "email" = Some (VStr (email data)) →
  u !! "username" = Some (VStr (username data)) →
  let w' := at_time t (UsersService.delete id w).2 in
  (AuthService.create data w').1
  = Return (delete "password" (registered_row data w'))
  ∧ users (AuthService.create data w').2
    = users w' ++ [registered_row data w'].
Proof.
  intros [He Hu] Hr Hue Huu w'. subst w'.
  destruct (delete_cases id w)
    as [[E Hn]|(n & l1 & v & l2 & Hp & Hl & _ & _ & E)]; rewrite E in *;
    [done|].
  cbn [fst snd] in *. injection Hr as ->. rewrite Hl in He, Hu.
  unfold AuthService.create. rewrite create_fresh; [done | |].
  - apply Forall_not_taken. cbn [users at_time set_users].
    by eapply unique_on_others.
  - apply Forall_not_taken. cbn [users at_time set_users].
    by eapply unique_on_others.
Qed.

End Deleting.

(** X15. A token issued for an email that is no longer stored when it is
    presented, the user having been deleted or the email changed, is
    refused with [InvalidToken], even within the hour, and no row is
    changed. *)
Theorem token_of_removed_user (email id : string) (w w' : World)
    (token : Token) :
  (UsersService.generateEmailVerificationToken email id w).1 = Return token →
  env w' = env w →
  clock w' < clock w + 3600 →
  ¬ email_taken email w' →
  (UsersService.verifyEmailVerificationToken token w').1 = Throw InvalidToken
  ∧ users (UsersService.verifyEmailVerificationToken token w').2 = users w'.
Proof.
  intros Hg He Hlt Hn.
  apply generate_returns in Hg as (_ & s & Hs & ->).
  rewrite <- (secret_env w w' He) in Hs.
  rewrite (verify_accepted _ _ _ _ Hs (jwt_sign_verifies _ _ _ _ _ Hlt)).
  cbn [claims].
  destruct (update_rejected
              (({[ "email" := VStr email ]} : JsObject) !! "email")
              verified_flag w') as (x & -> & ->); [|done].
  intros e. rewrite lookup_singleton_eq. intros [= <-].
  by apply not_taken_find.
Qed.

(** ** Cookies and the controller *)

(** X16. [setAuthCookies] adds two cookies after those the response has,
    [accessToken] and then [refreshToken], with the values given, and
    leaves the body alone.  Each carries the caller's options, except
    that [maxAge] is always 24 hours for the access token and 7 days for
    the refresh token, in milliseconds, whatever the caller passed. *)
Theorem setAuthCookies_cookies (res : Response) (a r : string)
    (opts : JsObject) :
  let res' := setAuthCookies res a r opts in
  body res' = body res
  ∧ ∃ ca cr,
      cookies res' = cookies res ++ [ca; cr]
      ∧ cookie_name ca = "accessToken" ∧ cookie_value ca = a
      ∧ cookie_name cr = "refreshToken" ∧ cookie_value cr = r
      ∧ cookie_options ca !! "maxAge" = Some (VNum 86400000)
      ∧ cookie_options cr !! "maxAge" = Some (VNum 604800000)
      ∧ ∀ k, k ≠ "maxAge" →
             cookie_options ca !! k = opts !! k
             ∧ cookie_options cr !! k = opts !! k.
Proof.
  cbv zeta. split; [done|].
  eexists _, _. unfold setAuthCookies, res_cookie. cbn [cookies].
  rewrite <- app_assoc. split; [reflexivity|]. cbn.
  split_and!; try done.
  - apply lookup_insert_eq.
  - apply lookup_insert_eq.
  - intros k Hk. by rewrite !lookup_insert_ne.
Qed.

Lemma bind_ret {A B} (a : A) (k : A → M B) w : bind (ret a) k w = k a w.
Proof. reflexivity. Qed.

Lemma try_rethrow {A} (m : M A) w :
  try_catch m AuthController.rethrow w = m w.
Proof.
  unfold try_catch, AuthController.rethrow, throw.
  by destruct (m w) as [[a|e] w'].
Qed.

Section Controller.
Context {ext : Externals} {later : LaterServices}.

(** X17. When the service accepts the credentials, [login] answers with
    the response that [setAuthCookies] gives for the two tokens and the
    controller's cookie options, with the body [{ message: 'Login
    successful' }].  When the service throws, [login] throws the same
    error and there is no response. *)
Theorem login_sets_cookies (loginDto : LoginDto) (res : Response)
    (w : World) :
  (∀ a r w', authService_login loginDto w = (Return (a, r), w') →
     AuthController.login loginDto res w
     = (Return
          (res_json {[ "message" := VStr "Login successful" ]}
             (setAuthCookies res a r AuthController.cookieOptions)),
        w'))
  ∧ (∀ e w', authService_login loginDto w = (Throw e, w') →
     AuthController.login loginDto res w = (Throw e, w')).
Proof.
  unfold AuthController.login. rewrite try_rethrow. split.
  - intros a r w' E. by erewrite bind_return by exact E.
  - intros e w' E. by erewrite bind_throw by exact E.
Qed.

(** X18. Every cookie a successful [login] sets is [httpOnly], has the
    path [/], is [secure] exactly in production, and has [sameSite] [none]
    in production and [lax] elsewhere: [sameSite: 'none'] never comes
    without [secure]. *)
Theorem login_cookie_flags (loginDto : LoginDto) (res res' : Response)
    (w w' : World) (c : Cookie) :
  AuthController.login loginDto res w = (Return res', w') →
  c ∈ cookies res' → c ∉ cookies res →
  cookie_options c !! "httpOnly" = Some (VBool true)
  ∧ cookie_options c !! "path" = Some (VStr "/")
  ∧ cookie_options c !! "secure" = Some (VBool tokenService_isProduction)
  ∧ cookie_options c !! "sameSite"
    = Some (VStr (if tokenService_isProduction then "none" else "lax"))
  ∧ (cookie_options c !! "sameSite" = Some (VStr "none") →
       cookie_options c !! "secure" = Some (VBool true)).
Proof.
  unfold AuthController.login. rewrite try_rethrow. unfold bind.
  destruct (authService_login loginDto w) as [[[a r]|e] w1]; [|done].
  intros [= <- <-]. cbn [res_json res_cookie cookies].
  rewrite <- app_assoc.
  intros [Hc|Hc]%elem_of_app Hn; [done|].
  assert (cookie_options c
          = <["maxAge" := VNum (24 * 60 * 60 * 1000)]>
              AuthController.cookieOptions
          ∨ cookie_options c
            = <["maxAge" := VNum (7 * 24 * 60 * 60 * 1000)]>
                AuthController.cookieOptions) as Ho.
  { apply elem_of_cons in Hc as [->|Hc]; [by left|].
    apply list_elem_of_singleton in Hc as ->. by right. }
  unfold AuthController.cookieOptions in Ho.
  destruct Ho as [-> | ->];
    (split_and!; [done | done | done | done |]);
    by destruct tokenService_isProduction.
Qed.

(** X19. The controller turns away, before any service is called and
    without any change, a request for [profile], [update],
    [refreshTokens] or [logout] that has no user (a [TypeError], from
    reading its id) or whose user has no id or an empty one (["User id is
    required"]), and a request for [verifyEmail] without a token or with
    an empty one (["Token is required"]). *)
Theorem controller_guards (req : Request) (dto : JsObject) (w : World) :
  (req_user req = None →
     ∃ m, AuthController.profile req w = (Throw (TypeError m), w)
          ∧ AuthController.update req dto w = (Throw (TypeError m), w)
          ∧ AuthController.refreshTokens req w = (Throw (TypeError m), w)
          ∧ AuthController.logout req w = (Throw (TypeError m), w))
  ∧ (∀ user, req_user req = Some user → nonempty (user_id user) = None →
       let e := PlainError "User id is required" in
       AuthController.profile req w = (Throw e, w)
       ∧ AuthController.update req dto w = (Throw e, w)
       ∧ AuthController.refreshTokens req w = (Throw e, w)
       ∧ AuthController.logout req w = (Throw e, w))
  ∧ (∀ token, token = None ∨ token = Some (Raw EmptyString) →
       AuthController.verifyEmail token w
       = (Throw (PlainError "Token is required"), w)).
Proof.
  unfold AuthController.profile, AuthController.update,
    AuthController.refreshTokens, AuthController.logout,
    AuthController.verifyEmail.
  rewrite !try_rethrow. unfold bind, AuthController.request_user.
  split_and!.
  - intros ->. by eexists.
  - intros user Hu Hn. rewrite Hu. cbn [ret]. by rewrite Hn.
  - intros token [-> | ->]; by rewrite try_rethrow.
Qed.

(** X20. Past its guards the controller adds nothing: with a user id in
    the request, each method gives the outcome and the world of the
    service call it makes, errors included; [refreshTokens] passes the
    refresh token of the request, present or not; [logout] answers a
    success with [{ message: 'Logout successful' }]; [create] is
    [AuthService.create], so that [DuplicateEmail] reaches the caller
    unchanged. *)
Theorem controller_passes_through (req : Request) (user : RequestUser)
    (id : string) (w : World) :
  req_user req = Some user →
  nonempty (user_id user) = Some id →
  AuthController.profile req w = authService_profile id w
  ∧ (∀ dto, AuthController.update req dto w
            = authService_updateProfile id dto w)
  ∧ AuthController.refreshTokens req w
    = authService_refreshTokens (user_refreshToken user) w
  ∧ AuthController.logout req w
    = (let* _ := authService_logout id in
       ret {[ "message" := VStr "Logout successful" ]}) w
  ∧ (∀ dto, AuthController.create dto w = AuthService.create dto w)
  ∧ (∀ t, falsy t = false →
          AuthController.verifyEmail (Some t) w
          = authService_verifyEmail t w).
Proof.
  intros Hu Hid.
  unfold AuthController.profile, AuthController.update,
    AuthController.refreshTokens, AuthController.logout,
    AuthController.create.
  unfold AuthController.request_user. rewrite Hu.
  split_and!.
  - by rewrite try_rethrow, bind_ret, Hid.
  - intros dto. by rewrite try_rethrow, bind_ret, Hid.
  - by rewrite try_rethrow, bind_ret, Hid.
  - by rewrite try_rethrow, bind_ret, Hid.
  - intros dto. by rewrite try_rethrow.
  - intros t Ht. unfold AuthController.verifyEmail.
    by rewrite try_rethrow, Ht.
Qed.

End Controller.

(** ** The earlier revision *)

Lemma earlier_secret_run w :
  EarlierUsersService.secret w
  = (Return (default "development" (JWT_SECRET (env w))), w).
Proof. reflexivity. Qed.

Lemma earlier_generate_unknown email w :
  ¬ email_taken email w →
  EarlierUsersService.generateEmailVerificationToken email w
  = (Throw UserNotFound, log (CallFindUnique email) w).
Proof.
  intros He. apply not_taken_find in He.
  unfold EarlierUsersService.generateEmailVerificationToken, bind,
    prisma_user_findUnique.
  by rewrite He.
Qed.

Lemma earlier_generate_known email w :
  email_taken email w →
  EarlierUsersService.generateEmailVerificationToken email w
  = match jwt_sign_key {[ "email" := VStr email ]}
            (default "development" (JWT_SECRET (env w))) one_hour (clock w)
    with
    | inr token => (Return token, log (CallFindUnique email) w)
    | inl e => (Throw e, log (CallFindUnique email) w)
    end.
Proof.
  intros He. apply taken_find in He as [u E].
  unfold EarlierUsersService.generateEmailVerificationToken, bind,
    prisma_user_findUnique.
  rewrite E. cbn [EarlierUsersService.secret bind process_env ret env log
                  Date_now clock].
  by destruct (jwt_sign_key _ _ _ _).
Qed.

Lemma earlier_verify_run token w :
  EarlierUsersService.verifyEmailVerificationToken token w
  = match jwt_verify_key token (default "development" (JWT_SECRET (env w)))
            (clock w) with
    | inr p => (Return p, w)
    | inl _ => (Throw InvalidToken, w)
    end.
Proof.
  unfold EarlierUsersService.verifyEmailVerificationToken, try_catch, bind.
  cbn [EarlierUsersService.secret bind process_env ret Date_now].
  by destruct (jwt_verify_key _ _ _).
Qed.

Lemma jwt_verify_key_nonempty t s now :
  s ≠ EmptyString → jwt_verify_key t s now = jwt_verify t s now.
Proof.
  intros Hs. destruct t as [p k|r]; [|done]. cbn.
  by rewrite decide_False.
Qed.

Section Earlier.
Context {ext : Externals}.

Lemma earlier_create_as_later data w :
  EarlierUsersService.create data w
  = UsersService.create
      {| email := email data; username := before_at (email data);
         password := password data |} w.
Proof. reflexivity. Qed.

(** X21. In the earlier revision the username is the text of the email
    before its first [@], whatever username the request carries.  So once
    a registration has succeeded, no other email with the same text before
    the [@] can be registered: the attempt fails with the creation error
    when that email is not stored yet, and the collection is unchanged. *)
Theorem earlier_same_local_part (first second : CreateUserDto) (w : World)
    (t : Z) (r : JsObject) :
  (EarlierUsersService.create first w).1 = Return r →
  before_at (email second) = before_at (email first) →
  let w1 := at_time t (EarlierUsersService.create first w).2 in
  r !! "username" = Some (VStr (before_at (email first)))
  ∧ users (EarlierUsersService.create second w1).2 = users w1
  ∧ (email_taken (email second) w1 →
       (EarlierUsersService.create second w1).1 = Throw DuplicateEmail)
  ∧ (¬ email_taken (email second) w1 →
       (EarlierUsersService.create second w1).1 = Throw CreateFailed).
Proof.
  intros Hr Hb w1. subst w1. rewrite !earlier_create_as_later in *.
  pose proof Hr as Hr'.
  apply create_returns in Hr' as (_ & _ & Hus).
  set (w1 := at_time t _).
  assert (username_taken (before_at (email second)) w1) as Ht.
  { rewrite Hb. eapply taken_app_r; [exact Hus | done]. }
  split_and!.
  - rewrite create_fresh in Hr by (by apply create_returns in Hr as (? & ? & _)).
    by injection Hr as <-.
  - destruct (taken_dec "email" (VStr (email second)) w1) as [He|He].
    + by rewrite create_duplicate.
    + rewrite create_conflict by done. cbn [snd]. by rewrite users_logs.
  - intros He. by rewrite create_duplicate.
  - intros He. by rewrite create_conflict.
Qed.

End Earlier.

(** X22. The earlier [verifyEmailVerificationToken] never changes the
    world, so it never marks a user as verified.  Every failure is
    [InvalidToken], that of an expired token included.  What it returns on
    success is the payload of the token, which was signed with the secret
    and is not past its expiry. *)
Theorem earlier_verify_only_decodes (token : Token) (w : World) :
  (EarlierUsersService.verifyEmailVerificationToken token w).2 = w
  ∧ (∀ e, (EarlierUsersService.verifyEmailVerificationToken token w).1
          = Throw e → e = InvalidToken)
  ∧ (∀ p x, token = Jws p (default "development" (JWT_SECRET (env w))) →
            exp p = Some x → x <= clock w →
            (EarlierUsersService.verifyEmailVerificationToken token w).1
            = Throw InvalidToken)
  ∧ (∀ p, (EarlierUsersService.verifyEmailVerificationToken token w).1
          = Return p →
          token = Jws p (default "development" (JWT_SECRET (env w)))
          ∧ ∀ x, exp p = Some x → clock w < x).
Proof.
  rewrite earlier_verify_run.
  set (s := default "development" (JWT_SECRET (env w))).
  split_and!.
  - by destruct (jwt_verify_key _ _ _).
  - intros e. destruct (jwt_verify_key _ _ _); [by intros [= <-] | done].
  - intros p x -> Hx Hle.
    destruct (jwt_verify_key (Jws p s) s (clock w)) as [e|q] eqn:Hv; [done|].
    unfold jwt_verify_key in Hv.
    destruct (decide (s = EmptyString)); [done|].
    apply jwt_verify_accepts in Hv as [[= <-] Hq].
    specialize (Hq x Hx). lia.
  - intros p. destruct (jwt_verify_key token s (clock w)) as [e|q] eqn:Hv;
      [done|]. intros [= <-].
    destruct token as [q' k|r]; unfold jwt_verify_key in Hv.
    + destruct (decide (s = EmptyString)); [done|].
      by apply jwt_verify_accepts in Hv.
    + by apply jwt_verify_accepts in Hv.
Qed.

(** X23. Where the secret is configured and not empty the two revisions
    agree on tokens: they issue the same token for an email, and the
    earlier verification returns a payload exactly when the validation of
    the later one accepts the token, and it is that payload. *)
Theorem revisions_agree_when_configured (w : World) (s : string) :
  JWT_SECRET (env w) = Some s → s ≠ EmptyString →
  (∀ email id,
     EarlierUsersService.generateEmailVerificationToken email w
     = UsersService.generateEmailVerificationToken email id w)
  ∧ (∀ token p,
       (EarlierUsersService.verifyEmailVerificationToken token w).1
       = Return p
       ↔ validate token w = inr p).
Proof.
  intros Hc Hne. pose proof (secret_configured w s Hc Hne) as Hs.
  split.
  - intros email id.
    destruct (taken_dec "email" (VStr email) w) as [He|He].
    + rewrite earlier_generate_known, generate_known by done.
      rewrite Hs, Hc. change (default "development" (Some s)) with s.
      cbn [fst]. unfold jwt_sign_key. by rewrite decide_False.
    + by rewrite earlier_generate_unknown, generate_unknown.
  - intros token p. rewrite earlier_verify_run. unfold validate.
    rewrite Hs, Hc. change (default "development" (Some s)) with s.
    cbn [fst]. rewrite jwt_verify_key_nonempty by done.
    destruct (jwt_verify token s (clock w)); cbn [fst];
      split; intros; by simplify_eq.
Qed.

(** X24. The earlier revision has no production guard and takes an empty
    secret as a secret.  With the variable unset, in production too, a
    token for a stored user is issued under the key ["development"].  With
    the variable set to the empty string nothing can be issued, the call
    failing with the plain error of the signing library, and every token
    is refused. *)
Theorem earlier_secret_edges (w : World) (email : string) :
  email_taken email w →
  (JWT_SECRET (env w) = None →
     (EarlierUsersService.generateEmailVerificationToken email w).1
     = Return (jwt_sign {[ "email" := VStr email ]} "development" one_hour
                 (clock w)))
  ∧ (JWT_SECRET (env w) = Some EmptyString →
     (EarlierUsersService.generateEmailVerificationToken email w).1
     = Throw (PlainError "secretOrPrivateKey must have a value")
     ∧ ∀ token,
         (EarlierUsersService.verifyEmailVerificationToken token w).1
         = Throw InvalidToken).
Proof.
  intros He. rewrite earlier_generate_known by done. split.
  - by intros ->.
  - intros Hc. rewrite Hc. split; [done|].
    intros token. rewrite earlier_verify_run, Hc.
    by destruct token as [p k|[|a r]].
Qed.

(** * The further properties on sample requests *)

Lemma secret_never_empty_sample :
  "default-secret" ≠ EmptyString
  ∧ (JWT_SECRET (env Sample.dev) = Some "default-secret"
     ∨ "default-secret" = "default-secret"
       ∧ secret_absent (env Sample.dev)
       ∧ NODE_ENV (env Sample.dev) ≠ Some "production").
Proof.
  apply (proj2 (secret_never_empty Sample.dev) "default-secret").
  reflexivity.
Defined.

Lemma register_twice_sample :
  (AuthService.create (ext := Sample.externals) Sample.dto_bob_again
     (at_time 500
        (AuthService.create (ext := Sample.externals) Sample.dto_bob
           Sample.dev).2)).1
  = Throw DuplicateEmail.
Proof.
  apply (@register_twice Sample.externals Sample.dto_bob
           Sample.dto_bob_again Sample.dev 500
           (delete "password"
              (registered_row (ext := Sample.externals) Sample.dto_bob
                 Sample.dev))).
  - reflexivity.
  - reflexivity.
Defined.

Lemma issued_token_verifies_sample :
  (UsersService.verifyEmailVerificationToken Sample.ada_dev_token
     (at_time 200 Sample.dev)).1
  = Return "Email verified successfully".
Proof.
  refine (proj1 (proj1 (issued_token_verifies "ada@x.com" Sample.ada_id
                          Sample.dev (at_time 200 Sample.dev)
                          Sample.ada_dev_token _ _ _) _)).
  - reflexivity.
  - reflexivity.
  - apply taken_existsb. reflexivity.
  - reflexivity.
Defined.

Lemma register_issue_verify_sample :
  (UsersService.verifyEmailVerificationToken
     (jwt_sign {[ "email" := VStr "bob@x.com" ]} "default-secret" one_hour 150)
     (at_time 200
        (UsersService.generateEmailVerificationToken "bob@x.com" "65f0c0ffee1"
           (at_time 150
              (AuthService.create (ext := Sample.externals) Sample.dto_bob
                 Sample.dev).2)).2)).1
  = Return "Email verified successfully".
Proof.
  apply (@register_issue_verify Sample.externals Sample.dto_bob
           "65f0c0ffee1" Sample.dev 150 200
           (delete "password"
              (registered_row (ext := Sample.externals) Sample.dto_bob
                 Sample.dev))
           (jwt_sign {[ "email" := VStr "bob@x.com" ]} "default-secret"
              one_hour 150)).
  - reflexivity.
  - reflexivity.
  - reflexivity.
Defined.

Lemma token_of_another_secret_sample :
  UsersService.verifyEmailVerificationToken Sample.ada_dev_token Sample.live
  = (Throw InvalidToken, Sample.live).
Proof.
  apply (token_of_another_secret "ada@x.com" Sample.ada_id Sample.dev
           Sample.live Sample.ada_dev_token "default-secret" "s3cret").
  - reflexivity.
  - reflexivity.
  - reflexivity.
  - discriminate.
Defined.

Lemma unique_store_sample : unique_store Sample.dev.
Proof. split; apply NoDup_singleton. Qed.

Lemma unique_store_kept_sample :
  unique_store
    (UsersService.create (ext := Sample.externals) Sample.dto_bob
       Sample.dev).2.
Proof.
  apply (proj1 (@unique_store_kept Sample.externals Sample.ids Sample.dev
                  unique_store_sample)).
Defined.

Lemma verification_mail_outcomes_sample :
  UsersService.sendEmailVerificationEmail (ext := Sample.externals)
    "ada@x.com" "abc.def.ghi" Sample.dev_bad_url
  = (Throw (TypeError "Invalid URL"), Sample.dev_bad_url)
  ∧ (UsersService.sendEmailVerificationEmail (ext := Sample.externals)
       "ada@x.com" "abc.def.ghi" Sample.dev).1 = Return tt.
Proof.
  split.
  - apply (proj1 (proj2 (@verification_mail_outcomes Sample.externals
                           "ada@x.com" "abc.def.ghi" Sample.dev_bad_url))).
    reflexivity.
  - apply (proj2 (proj2 (@verification_mail_outcomes Sample.externals
                           "ada@x.com" "abc.def.ghi" Sample.dev))
             "http://localhost:8080/verify-email" eq_refl).
    reflexivity.
Defined.

Lemma findOne_outcomes_sample :
  (UsersService.findOne (ext := Sample.externals) (ids := Sample.ids)
     "not-an-id" Sample.dev).1 = Throw FindFailed
  ∧ (UsersService.findOne (ext := Sample.externals) (ids := Sample.ids)
       "65f0c0ffee1" Sample.dev).1 = Throw UserNotFound
  ∧ (UsersService.findOne (ext := Sample.externals) (ids := Sample.ids)
       Sample.ada_id Sample.dev).1 = Return Sample.ada.
Proof.
  split_and!.
  - apply (proj1 (proj2 (@findOne_outcomes Sample.externals Sample.ids
                           "not-an-id" Sample.dev))).
    reflexivity.
  - apply (proj1 (proj2 (proj2 (@findOne_outcomes Sample.externals
                                  Sample.ids "65f0c0ffee1" Sample.dev)))
             1%N); reflexivity.
  - apply (proj2 (proj2 (proj2 (@findOne_outcomes Sample.externals
                                  Sample.ids Sample.ada_id Sample.dev)))
             0%N Sample.ada); reflexivity.
Defined.

Lemma update_failures_sample :
  (UsersService.update (ext := Sample.externals) (ids := Sample.ids)
     "65f0c0ffee1" {[ "phoneNumber" := VStr "555" ]} Sample.dev).2
  = Sample.dev.
Proof.
  apply (@update_failures Sample.externals Sample.ids "65f0c0ffee1"
           {[ "phoneNumber" := VStr "555" ]} Sample.dev UpdateFailed).
  reflexivity.
Defined.


Lemma delete_outcomes_sample :
  (UsersService.delete (ext := Sample.externals) (ids := Sample.ids)
     "65f0c0ffee1" Sample.dev).2 = Sample.dev
  ∧ (UsersService.findOne (ext := Sample.externals) (ids := Sample.ids)
       Sample.ada_id Sample.dev).1 = Return Sample.ada.
Proof.
  split.
  - apply (proj1 (@delete_outcomes Sample.externals Sample.ids
                    "65f0c0ffee1" Sample.dev) DeleteFailed).
    reflexivity.
  - apply (proj2 (@delete_outcomes Sample.externals Sample.ids
                    Sample.ada_id Sample.dev) Sample.ada).
    reflexivity.
Defined.

Lemma delete_then_gone_sample :
  (UsersService.findOne (ext := Sample.externals) (ids := Sample.ids)
     Sample.ada_id
     (at_time 300
        (UsersService.delete (ext := Sample.externals) (ids := Sample.ids)
           Sample.ada_id Sample.dev).2)).1
  = Throw UserNotFound.
Proof.
  apply (@delete_then_gone Sample.externals Sample.ids Sample.ada_id
           Sample.dev Sample.ada 300).
  - apply NoDup_singleton.
  - reflexivity.
Defined.

Lemma delete_frees_email_sample :
  let w' :=
    at_time 300
      (UsersService.delete (ext := Sample.externals) (ids := Sample.ids)
         Sample.ada_id Sample.dev).2 in
  (AuthService.create (ext := Sample.externals) Sample.dto_ada_back w').1
  = Return (delete "password"
              (registered_row (ext := Sample.externals) Sample.dto_ada_back
                 w')).
Proof.
  apply (@delete_frees_email Sample.externals Sample.ids Sample.ada_id
           Sample.dev Sample.ada Sample.dto_ada_back 300).
  - split; apply NoDup_singleton.
  - reflexivity.
  - reflexivity.
  - reflexivity.
Defined.

Lemma token_of_removed_user_sample :
  (UsersService.verifyEmailVerificationToken Sample.ada_dev_token
     (set_users [] 1 (at_time 200 Sample.dev))).1
  = Throw InvalidToken.
Proof.
  apply (token_of_removed_user "ada@x.com" Sample.ada_id Sample.dev
           (set_users [] 1 (at_time 200 Sample.dev)) Sample.ada_dev_token).
  - reflexivity.
  - reflexivity.
  - reflexivity.
  - apply not_taken_existsb. reflexivity.
Defined.

Lemma setAuthCookies_cookies_sample :
  body (setAuthCookies Sample.empty_response "access" "refresh"
          {[ "maxAge" := VNum 1 ]})
  = None.
Proof.
  apply (setAuthCookies_cookies Sample.empty_response "access" "refresh"
           {[ "maxAge" := VNum 1 ]}).
Defined.

Lemma login_sets_cookies_sample :
  AuthController.login (later := Sample.later)
    {| login_email := "ada@x.com"; login_password := "P@ss1" |}
    Sample.empty_response Sample.dev
  = (Return
       (res_json {[ "message" := VStr "Login successful" ]}
          (setAuthCookies Sample.empty_response "access" "refresh"
             (AuthController.cookieOptions (later := Sample.later)))),
     Sample.dev)
  ∧ AuthController.login (later := Sample.later)
      {| login_email := "eve@x.com"; login_password := "guess" |}
      Sample.empty_response Sample.dev
    = (Throw (BadRequestException "Invalid credentials"), Sample.dev).
Proof.
  split.
  - apply (proj1 (@login_sets_cookies Sample.later
                    {| login_email := "ada@x.com";
                       login_password := "P@ss1" |}
                    Sample.empty_response Sample.dev)).
    reflexivity.
  - apply (proj2 (@login_sets_cookies Sample.later
                    {| login_email := "eve@x.com";
                       login_password := "guess" |}
                    Sample.empty_response Sample.dev)).
    reflexivity.
Defined.

Lemma login_cookie_flags_sample :
  let c :=
    {| cookie_name := "refreshToken"; cookie_value := "refresh";
       cookie_options :=
         <["maxAge" := VNum refresh_maxAge]>
           (AuthController.cookieOptions (later := Sample.later)) |} in
  cookie_options c !! "httpOnly" = Some (VBool true)
  ∧ cookie_options c !! "path" = Some (VStr "/")
  ∧ cookie_options c !! "secure" = Some (VBool true)
  ∧ cookie_options c !! "sameSite" = Some (VStr "none")
  ∧ (cookie_options c !! "sameSite" = Some (VStr "none") →
       cookie_options c !! "secure" = Some (VBool true)).
Proof.
  refine (@login_cookie_flags Sample.later
            {| login_email := "ada@x.com"; login_password := "P@ss1" |}
            Sample.empty_response
            (res_json {[ "message" := VStr "Login successful" ]}
               (setAuthCookies Sample.empty_response "access" "refresh"
                  (AuthController.cookieOptions (later := Sample.later))))
            Sample.dev Sample.dev _ _ _ _).
  - reflexivity.
  - apply elem_of_cons. right. apply elem_of_cons. by left.
  - apply not_elem_of_nil.
Defined.

Lemma controller_guards_sample :
  AuthController.logout (later := Sample.later)
    {| req_user := Some {| user_id := None; user_refreshToken := None |} |}
    Sample.dev
  = (Throw (PlainError "User id is required"), Sample.dev)
  ∧ AuthController.verifyEmail (later := Sample.later) None Sample.dev
    = (Throw (PlainError "Token is required"), Sample.dev).
Proof.
  split.
  - refine (proj2 (proj2 (proj2
              (proj1 (proj2 (@controller_guards Sample.later
                               {| req_user :=
                                    Some {| user_id := None;
                                            user_refreshToken := None |} |}
                               ∅ Sample.dev))
                 {| user_id := None; user_refreshToken := None |} _ _)))).
    + reflexivity.
    + reflexivity.
  - apply (proj2 (proj2 (@controller_guards Sample.later
                           {| req_user := None |} ∅ Sample.dev))).
    by left.
Defined.

Lemma controller_passes_through_sample :
  AuthController.profile (later := Sample.later) Sample.ada_request
    Sample.dev
  = UsersService.findOne (ext := Sample.externals) (ids := Sample.ids)
      Sample.ada_id Sample.dev.
Proof.
  refine (proj1 (@controller_passes_through Sample.externals Sample.later
                   Sample.ada_request
                   {| user_id := Some Sample.ada_id;
                      user_refreshToken := None |}
                   Sample.ada_id Sample.dev _ _)).
  - reflexivity.
  - reflexivity.
Defined.

Lemma earlier_same_local_part_sample :
  (EarlierUsersService.create (ext := Sample.externals)
     Sample.dto_bob_elsewhere
     (at_time 300
        (EarlierUsersService.create (ext := Sample.externals) Sample.dto_bob
           Sample.dev).2)).1
  = Throw CreateFailed.
Proof.
  refine (proj2 (proj2 (proj2
            (@earlier_same_local_part Sample.externals Sample.dto_bob
               Sample.dto_bob_elsewhere Sample.dev 300
               (delete "password"
                  (registered_row (ext := Sample.externals) Sample.dto_bob
                     Sample.dev)) _ _))) _).
  - reflexivity.
  - reflexivity.
  - apply not_taken_existsb. reflexivity.
Defined.

Lemma earlier_verify_only_decodes_sample :
  (EarlierUsersService.verifyEmailVerificationToken Sample.ada_token
     (Sample.world Sample.configured 3700)).1
  = Throw InvalidToken.
Proof.
  refine (proj1 (proj2 (proj2
            (earlier_verify_only_decodes Sample.ada_token
               (Sample.world Sample.configured 3700))))
            {| claims := {[ "email" := VStr "ada@x.com" ]}; iat := 100;
               exp := Some 3700 |} 3700 _ _ _).
  - reflexivity.
  - reflexivity.
  - reflexivity.
Defined.

Lemma revisions_agree_when_configured_sample :
  EarlierUsersService.generateEmailVerificationToken "ada@x.com" Sample.live
  = UsersService.generateEmailVerificationToken "ada@x.com" Sample.ada_id
      Sample.live.
Proof.
  refine (proj1 (revisions_agree_when_configured Sample.live "s3cret" _ _)
            "ada@x.com" Sample.ada_id).
  - reflexivity.
  - discriminate.
Defined.

Lemma earlier_secret_edges_sample :
  (EarlierUsersService.generateEmailVerificationToken "ada@x.com"
     Sample.prod).1
  = Return (jwt_sign {[ "email" := VStr "ada@x.com" ]} "development"
              one_hour 100)
  ∧ (EarlierUsersService.generateEmailVerificationToken "ada@x.com"
       Sample.dev_empty_secret).1
    = Throw (PlainError "secretOrPrivateKey must have a value").
Proof.
  split.
  - refine (proj1 (earlier_secret_edges Sample.prod "ada@x.com" _) _).
    + apply taken_existsb. reflexivity.
    + reflexivity.
  - refine (proj1 (proj2 (earlier_secret_edges Sample.dev_empty_secret
                            "ada@x.com" _) _)).
    + apply taken_existsb. reflexivity.
    + reflexivity.
Defined.
